(** * OmniDiag: the diagnostic client and the session state of the page

    A shallow embedding of [src/services/geminiService.ts] (the request that
    [runDiagnostics] builds and the way it settles on the upstream answer),
    of [src/types.ts] (the report data) and of the event handlers of
    [src/App.tsx] (speech capture, case submission, history, follow-up chat).

    Conventions.
    - A JavaScript string is a [string] holding its UTF-8 bytes.
    - [null] and [undefined] are [None]; a truthiness test of the source is
      written with [Js.truthy] and [Js.truthy_opt].
    - The [useState] cells, the transcript ref, the state of the recognition
      engine and the store of chat turn objects make up one record, [State];
      [setX v s] is the state after [setX(v)].  An updater function
      ([setX(prev => ...)]) is run once, on the state current when it is
      applied.
    - A handler that awaits is split at each [await]: the part before it
      returns the calls it issues, the part after it takes the settled
      result.  What the later part reads from the closure of the handler is
      read from the state of the render that created it ([snap]); refs and
      updater functions see the current state.
    - Chat turns are objects that the source changes in place, so the chat
      log is a list of references into a store of turn objects.
    - [runDiagnostics] returns whatever [JSON.parse] produced; the handlers
      of [App.tsx] are modelled on values of the type they declare for it,
      [DiagnosticReport].
    - The DOM (the file input, scrolling) and the rendering are left out,
      except for the conditions under which a button exists. *)

From Stdlib Require Import Ascii String NArith ZArith QArith.
From stdpp Require Import base option list strings gmap pretty.

Set Warnings "-register-all".
Local Open Scope string_scope.
Local Open Scope list_scope.

(** ** JavaScript strings *)

Module Js.

Definition code (c : ascii) : N := N_of_ascii c.

(** The quotation mark, U+0022. *)
Definition dq : string := String (ascii_of_N 34) EmptyString.

(** [quoted "a'b'"] is the text with every apostrophe replaced by a quotation
    mark; it is only used to write JSON texts legibly. *)
Fixpoint quoted (s : string) : string :=
  match s with
  | EmptyString => EmptyString
  | String c r =>
      String (if N.eqb (code c) 39 then ascii_of_N 34 else c) (quoted r)
  end.

(** [!s] for a string: the empty string is the only falsy one. *)
Definition truthy (s : string) : bool :=
  match s with EmptyString => false | _ => true end.

(** Truthiness of [string | null | undefined]. *)
Definition truthy_opt (o : option string) : bool :=
  match o with Some s => truthy s | None => false end.

(** [a || b] on strings. *)
Definition or_else (a b : string) : string := if truthy a then a else b.

(** [String.prototype.trim] strips WhiteSpace and LineTerminator code points
    from both ends.  On the UTF-8 bytes of the string these are: TAB, LF, VT,
    FF, CR, SP; U+00A0 (C2 A0); U+1680 (E1 9A 80); U+2000..U+200A
    (E2 80 80..8A); U+2028, U+2029, U+202F (E2 80 A8/A9/AF); U+205F
    (E2 81 9F); U+3000 (E3 80 80); U+FEFF (EF BB BF). *)
Definition is_ws1 (a : N) : bool :=
  ((9 <=? a) && (a <=? 13) || (a =? 32))%N.

Definition is_ws2 (a b : N) : bool := ((a =? 194) && (b =? 160))%N.

Definition is_ws3 (a b c : N) : bool :=
  ((a =? 225) && (b =? 154) && (c =? 128)
   || (a =? 226) && (b =? 128)
        && ((128 <=? c) && (c <=? 138) || (c =? 168) || (c =? 169) || (c =? 175))
   || (a =? 226) && (b =? 129) && (c =? 159)
   || (a =? 227) && (b =? 128) && (c =? 128)
   || (a =? 239) && (b =? 187) && (c =? 191))%N.

Fixpoint trim_start (l : list N) : list N :=
  match l with
  | a :: r1 =>
      if is_ws1 a then trim_start r1
      else match r1 with
           | b :: r2 =>
               if is_ws2 a b then trim_start r2
               else match r2 with
                    | c :: r3 => if is_ws3 a b c then trim_start r3 else l
                    | [] => l
                    end
           | [] => l
           end
  | [] => []
  end.

(** The same scan on the reversed bytes, where each code point appears with
    its bytes in reverse order. *)
Fixpoint trim_start_rev (l : list N) : list N :=
  match l with
  | a :: r1 =>
      if is_ws1 a then trim_start_rev r1
      else match r1 with
           | b :: r2 =>
               if is_ws2 b a then trim_start_rev r2
               else match r2 with
                    | c :: r3 => if is_ws3 c b a then trim_start_rev r3 else l
                    | [] => l
                    end
           | [] => l
           end
  | [] => []
  end.

Definition bytes (s : string) : list N := code <$> list_ascii_of_string s.

Definition of_bytes (l : list N) : string :=
  string_of_list_ascii (ascii_of_N <$> l).

Definition trim (s : string) : string :=
  of_bytes (rev (trim_start_rev (rev (trim_start (bytes s))))).

(** [Array.prototype.join] on strings. *)
Fixpoint join (sep : string) (l : list string) : string :=
  match l with
  | [] => ""
  | [x] => x
  | x :: r => x +:+ sep +:+ join sep r
  end.

End Js.

(** ** JSON values and [JSON.parse] *)

Module Json.

(** A parsed JSON value.  A number keeps the digits of its literal; an object
    keeps its members in source order (a later duplicate key shadows an
    earlier one, see [get]). *)
Inductive value : Type :=
| Null
| Bool (b : bool)
| Number (literal : string)
| Str (s : string)
| Array (items : list value)
| Object (members : list (string * value)).

(** Property read [o.k]: the last member named [k]; [None] is [undefined]
    (also when the value is not an object). *)
Fixpoint assoc_last (k : string) (ms : list (string * value)) : option value :=
  match ms with
  | [] => None
  | (k', v) :: r =>
      match assoc_last k r with
      | Some w => Some w
      | None => if String.eqb k k' then Some v else None
      end
  end.

Definition get (k : string) (v : value) : option value :=
  match v with Object ms => assoc_last k ms | _ => None end.

(** *** Lexer: one pass over the bytes *)

Inductive token : Type :=
| TLBrace | TRBrace | TLBracket | TRBracket | TColon | TComma
| TStr (s : string) | TNum (literal : string)
| TTrue | TFalse | TNull.

Definition is_digit (a : N) : bool := ((48 <=? a) && (a <=? 57))%N.

Definition hex_val (a : N) : option N :=
  if is_digit a then Some (a - 48)%N
  else if ((65 <=? a) && (a <=? 70))%N then Some (a - 55)%N
  else if ((97 <=? a) && (a <=? 102))%N then Some (a - 87)%N
  else None.

(** Bytes that may occur in a number literal. *)
Definition is_num_char (a : N) : bool :=
  (is_digit a || (a =? 43) || (a =? 45) || (a =? 46) || (a =? 69) || (a =? 101))%N.

Fixpoint skip_digits (l : list N) : list N :=
  match l with
  | a :: r => if is_digit a then skip_digits r else l
  | [] => []
  end.

(** One or more digits, then [k] on what follows. *)
Definition digits1 (l : list N) (k : list N -> bool) : bool :=
  match l with
  | a :: r => is_digit a && k (skip_digits r)
  | [] => false
  end.

Definition exp_ok (l : list N) : bool :=
  match l with
  | [] => true
  | a :: r =>
      ((a =? 69) || (a =? 101))%N &&
      match r with
      | s :: r' =>
          if ((s =? 43) || (s =? 45))%N
          then digits1 r' (fun t => match t with [] => true | _ => false end)
          else digits1 r (fun t => match t with [] => true | _ => false end)
      | [] => false
      end
  end.

Definition frac_ok (l : list N) : bool :=
  match l with
  | 46%N :: r => digits1 r exp_ok
  | _ => exp_ok l
  end.

(** The JSON number grammar: an optional minus sign; then either a single 0
    or a nonzero digit followed by any digits; then optionally a point and
    one or more digits; then optionally e or E, an optional sign and one or
    more digits. *)
Definition number_ok (l : list N) : bool :=
  let l1 := match l with 45%N :: r => r | _ => l end in
  match l1 with
  | 48%N :: r => frac_ok r
  | a :: r => is_digit a && frac_ok (skip_digits r)
  | [] => false
  end.

(** UTF-8 bytes of a [\uXXXX] code unit (a surrogate is encoded on its own). *)
Definition utf8 (n : N) : list N :=
  (if n <? 128 then [n]
   else if n <? 2048 then [192 + n / 64; 128 + n mod 64]
   else [224 + n / 4096; 128 + (n / 64) mod 64; 128 + n mod 64])%N.

Inductive lex_state : Type :=
| LIdle
| LStr (acc : list N)                    (* inside a string; bytes reversed *)
| LEsc (acc : list N)                    (* after a backslash *)
| LUni (acc : list N) (ds : list N)      (* after \u, hex digits so far *)
| LNum (acc : list N)                    (* inside a number; bytes reversed *)
| LLit (rest : list N) (t : token).      (* inside true / false / null *)

Definition idle_step (a : N) (out : list token)
  : option (lex_state * list token) :=
  if ((a =? 9) || (a =? 10) || (a =? 13) || (a =? 32))%N then Some (LIdle, out)
  else if (a =? 123)%N then Some (LIdle, TLBrace :: out)
  else if (a =? 125)%N then Some (LIdle, TRBrace :: out)
  else if (a =? 91)%N then Some (LIdle, TLBracket :: out)
  else if (a =? 93)%N then Some (LIdle, TRBracket :: out)
  else if (a =? 58)%N then Some (LIdle, TColon :: out)
  else if (a =? 44)%N then Some (LIdle, TComma :: out)
  else if (a =? 34)%N then Some (LStr [], out)
  else if (is_digit a || (a =? 45))%N then Some (LNum [a], out)
  else if (a =? 116)%N then Some (LLit [114; 117; 101]%N TTrue, out)
  else if (a =? 102)%N then Some (LLit [97; 108; 115; 101]%N TFalse, out)
  else if (a =? 110)%N then Some (LLit [117; 108; 108]%N TNull, out)
  else None.

Definition finish_num (acc : list N) (out : list token) : option (list token) :=
  let l := rev acc in
  if number_ok l then Some (TNum (Js.of_bytes l) :: out) else None.

Definition unescape (a : N) : option N :=
  if ((a =? 34) || (a =? 92) || (a =? 47))%N then Some a
  else if (a =? 98)%N then Some 8%N
  else if (a =? 102)%N then Some 12%N
  else if (a =? 110)%N then Some 10%N
  else if (a =? 114)%N then Some 13%N
  else if (a =? 116)%N then Some 9%N
  else None.

Fixpoint lex (st : lex_state) (out : list token) (input : list N)
  : option (list token) :=
  match input with
  | [] =>
      match st with
      | LIdle => Some (rev out)
      | LNum acc => out' ← finish_num acc out; Some (rev out')
      | _ => None
      end
  | a :: r =>
      match st with
      | LIdle => '(st', out') ← idle_step a out; lex st' out' r
      | LStr acc =>
          if (a =? 34)%N then lex LIdle (TStr (Js.of_bytes (rev acc)) :: out) r
          else if (a =? 92)%N then lex (LEsc acc) out r
          else if (a <? 32)%N then None
          else lex (LStr (a :: acc)) out r
      | LEsc acc =>
          if (a =? 117)%N then lex (LUni acc []) out r
          else b ← unescape a; lex (LStr (b :: acc)) out r
      | LUni acc ds =>
          d ← hex_val a;
          match ds with
          | [d1; d2; d3] =>
              let n := (((d1 * 16 + d2) * 16 + d3) * 16 + d)%N in
              lex (LStr (rev (utf8 n) ++ acc)) out r
          | _ => lex (LUni acc (ds ++ [d])) out r
          end
      | LNum acc =>
          if is_num_char a then lex (LNum (a :: acc)) out r
          else out1 ← finish_num acc out;
               '(st', out') ← idle_step a out1; lex st' out' r
      | LLit rest t =>
          match rest with
          | [x] => if (a =? x)%N then lex LIdle (t :: out) r else None
          | x :: rest' => if (a =? x)%N then lex (LLit rest' t) out r else None
          | [] => None
          end
      end
  end.

(** *** Parser: a pushdown automaton over the tokens *)

(** A container that is waiting for the value being read. *)
Inductive frame : Type :=
| FArr (acc : list value)                         (* elements, reversed *)
| FObj (acc : list (string * value)) (key : string).

Inductive mode : Type :=
| MValue                                  (* a value must follow *)
| MArrFirst                               (* after [[]: a value or []] *)
| MObjFirst                               (* after [{]: a key or [}] *)
| MKey (acc : list (string * value))      (* after [,] in an object *)
| MColon (acc : list (string * value)) (key : string)
| MAfterElem (acc : list value)           (* after an array element *)
| MAfterMember (acc : list (string * value))
| MDone (v : value).

(** A finished value goes to the innermost waiting container. *)
Definition deliver (v : value) (stack : list frame) : mode * list frame :=
  match stack with
  | [] => (MDone v, [])
  | FArr acc :: st => (MAfterElem (v :: acc), st)
  | FObj acc k :: st => (MAfterMember ((k, v) :: acc), st)
  end.

Definition start_value (t : token) (stack : list frame)
  : option (mode * list frame) :=
  match t with
  | TNull => Some (deliver Null stack)
  | TTrue => Some (deliver (Bool true) stack)
  | TFalse => Some (deliver (Bool false) stack)
  | TNum n => Some (deliver (Number n) stack)
  | TStr s => Some (deliver (Str s) stack)
  | TLBracket => Some (MArrFirst, stack)
  | TLBrace => Some (MObjFirst, stack)
  | _ => None
  end.

Definition parse_step (m : mode) (stack : list frame) (t : token)
  : option (mode * list frame) :=
  match m with
  | MValue => start_value t stack
  | MArrFirst =>
      match t with
      | TRBracket => Some (deliver (Array []) stack)
      | _ => start_value t (FArr [] :: stack)
      end
  | MObjFirst =>
      match t with
      | TRBrace => Some (deliver (Object []) stack)
      | TStr k => Some (MColon [] k, stack)
      | _ => None
      end
  | MKey acc =>
      match t with TStr k => Some (MColon acc k, stack) | _ => None end
  | MColon acc k =>
      match t with TColon => Some (MValue, FObj acc k :: stack) | _ => None end
  | MAfterElem acc =>
      match t with
      | TComma => Some (MValue, FArr acc :: stack)
      | TRBracket => Some (deliver (Array (rev acc)) stack)
      | _ => None
      end
  | MAfterMember acc =>
      match t with
      | TComma => Some (MKey acc, stack)
      | TRBrace => Some (deliver (Object (rev acc)) stack)
      | _ => None
      end
  | MDone _ => None
  end.

Fixpoint parse_tokens (m : mode) (stack : list frame) (ts : list token)
  : option value :=
  match ts with
  | [] => match m with MDone v => Some v | _ => None end
  | t :: r => '(m', stack') ← parse_step m stack t; parse_tokens m' stack' r
  end.

(** [JSON.parse(text)] without a reviver: [None] is a thrown [SyntaxError]. *)
Definition parse (text : string) : option value :=
  ts ← lex LIdle [] (Js.bytes text); parse_tokens MValue [] ts.

End Json.


(** The line feed, and a text given by its lines. *)
Definition nl : string := String (ascii_of_N 10) EmptyString.

Definition lines (l : list string) : string := Js.join nl l.

(** ** [src/types.ts] *)

Inductive Severity : Type := Low | Medium | High | Critical.

Inductive Priority : Type := Recommended | Optional | Urgent.

Definition Severity_name (s : Severity) : string :=
  match s with
  | Low => "Low" | Medium => "Medium" | High => "High" | Critical => "Critical"
  end.

Module RiskAssessment.
Record t : Type := mk {
  severity : Severity;
  summary : string;
  potentialConsequences : list string;
  mitigationSteps : list string }.
End RiskAssessment.

Module TroubleshootingStep.
Record t : Type := mk { step : Z; action : string; details : string }.
End TroubleshootingStep.

Module RecommendedFix.
Record t : Type := mk { fix_ : string; priority : Priority; details : string }.
End RecommendedFix.

Module ToolsAndParts.
Record t : Type := mk { tools : list string; parts : list string }.
End ToolsAndParts.

Module DiagnosticReport.
Record t : Type := mk {
  faultSummary : string;
  possibleCauses : list string;
  riskAssessment : RiskAssessment.t;
  troubleshootingSteps : list TroubleshootingStep.t;
  recommendedFixes : list RecommendedFix.t;
  simplifiedExplanation : string;
  toolsAndParts : ToolsAndParts.t }.
End DiagnosticReport.

Module UserInput.
Record t : Type := mk { text : string; image : bool; audio : string }.
End UserInput.

Module HistoryEntry.
Record t : Type := mk {
  id : string;
  timestamp : Z;                       (* a [Date], in milliseconds *)
  report : DiagnosticReport.t;
  userInput : UserInput.t }.
End HistoryEntry.

(** ** Response schemas ([Type.OBJECT], [Type.ARRAY], ... of the SDK) *)

Module Schema.

Inductive t : Type :=
| STRING (description : option string) (enum : option (list string))
| INTEGER
| ARRAY (description : option string) (items : t)
| OBJECT (description : option string)
         (properties : list (string * t)) (required : list string).

(** Value of a validated number literal as [m * 10^e]. *)
Fixpoint digits_value (acc : N) (l : list N) : N * list N :=
  match l with
  | a :: r =>
      if Json.is_digit a then digits_value (acc * 10 + (a - 48))%N r
      else (acc, l)
  | [] => (acc, [])
  end.

Definition mantissa_exponent (literal : string) : N * Z :=
  let l := Js.bytes literal in
  let l := match l with 45%N :: r => r | _ => l end in
  let '(i, r) := digits_value 0 l in
  let '(m, nfrac, r) :=
    match r with
    | 46%N :: r' =>
        let '(m, r'') := digits_value i r' in
        (m, Z.of_nat (length r' - length r''), r'')
    | _ => (i, 0%Z, r)
    end in
  let e :=
    match r with
    | _ :: 45%N :: r' => (- Z.of_N (fst (digits_value 0 r')))%Z
    | _ :: 43%N :: r' => Z.of_N (fst (digits_value 0 r'))
    | _ :: r' => Z.of_N (fst (digits_value 0 r'))
    | [] => 0%Z
    end in
  (m, (e - nfrac)%Z).

Definition is_integer (literal : string) : bool :=
  let '(m, e) := mantissa_exponent literal in
  ((m =? 0)%N || (0 <=? e)%Z || (Z.of_N m mod 10 ^ (- e) =? 0)%Z).

Definition string_in (s : string) (l : list string) : bool :=
  existsb (String.eqb s) l.

(** What the schema asks of a value: the type matches, an enumerated string
    is one of the listed ones, every required property is present, and every
    declared property that is present, and every array item, conforms. *)
Fixpoint conforms (sch : t) (v : Json.value) : bool :=
  match sch, v with
  | STRING _ None, Json.Str _ => true
  | STRING _ (Some names), Json.Str s => string_in s names
  | INTEGER, Json.Number n => is_integer n
  | ARRAY _ items, Json.Array vs => forallb (conforms items) vs
  | OBJECT _ props req, Json.Object ms =>
      forallb (fun k => bool_decide (is_Some (Json.assoc_last k ms))) req
      && (fix each (ps : list (string * t)) : bool :=
            match ps with
            | [] => true
            | (k, s) :: r =>
                match Json.assoc_last k ms with
                | Some w => conforms s w
                | None => true
                end && each r
            end) props
  | _, _ => false
  end.

End Schema.

(** ** [src/services/geminiService.ts] *)

Module GeminiService.

Import Schema.


Definition reportSchema : Schema.t :=
  OBJECT None
    [ ("faultSummary",
       STRING (Some "A concise summary of the primary fault or issue detected.") None);
      ("possibleCauses",
       ARRAY (Some "A list of likely root causes for the identified fault.")
         (STRING None None));
      ("riskAssessment",
       OBJECT (Some "An assessment of the risks associated with the fault, including specific consequences and mitigation strategies.")
         [ ("severity",
            STRING (Some "The severity level of the risk.")
              (Some ["Low"; "Medium"; "High"; "Critical"]));
           ("summary", STRING (Some "A brief summary of the overall risk.") None);
           ("potentialConsequences",
            ARRAY (Some "A list of specific, potential negative consequences if the issue is not addressed.")
              (STRING None None));
           ("mitigationSteps",
            ARRAY (Some "A list of actionable steps to mitigate or prevent the identified risks.")
              (STRING None None)) ]
         ["severity"; "summary"; "potentialConsequences"; "mitigationSteps"]);
      ("troubleshootingSteps",
       ARRAY (Some "A step-by-step guide to further diagnose the problem.")
         (OBJECT None
            [ ("step", INTEGER);
              ("action", STRING (Some "The action to perform for this step.") None);
              ("details",
               STRING (Some "Additional details or expected outcomes for the action.") None) ]
            ["step"; "action"; "details"]));
      ("recommendedFixes",
       ARRAY (Some "A list of recommended actions to fix the issue.")
         (OBJECT None
            [ ("fix", STRING (Some "The recommended fix.") None);
              ("priority",
               STRING (Some "The priority of this fix.")
                 (Some ["Recommended"; "Optional"; "Urgent"]));
              ("details",
               STRING (Some "More information about the implementation of the fix.") None) ]
            ["fix"; "priority"; "details"]));
      ("simplifiedExplanation",
       STRING (Some "A simple, non-technical explanation of the problem and solution, suitable for a client or manager.") None);
      ("toolsAndParts",
       OBJECT (Some "A list of tools and potential parts needed for diagnosis or repair.")
         [ ("tools",
            ARRAY (Some "A list of tools that might be required.") (STRING None None));
           ("parts",
            ARRAY (Some "A list of potential parts that may need replacement.")
              (STRING None None)) ]
         ["tools"; "parts"]) ]
    [ "faultSummary"; "possibleCauses"; "riskAssessment"; "troubleshootingSteps";
      "recommendedFixes"; "simplifiedExplanation"; "toolsAndParts" ].

Record ImagePayload : Type := { mimeType : string; data : string }.

Inductive Part : Type :=
| TextPart (text : string)
| InlineDataPart (inlineData : ImagePayload).

Record GenerateContentRequest : Type := {
  model : string;
  contents_parts : list Part;
  systemInstruction : string;
  responseMimeType : string;
  responseSchema : Schema.t;
  temperature : Q }.

Definition the_systemInstruction : string :=
  lines
    [ "You are OmniDiag, an expert AI diagnostic assistant. Analyze the user's input (text, images, audio transcript) to identify faults in any system (e.g., HVAC, electrical, mechanical, automotive, plumbing).";
      "  Your response MUST be a valid JSON object that adheres to the provided schema. Do not include any markdown formatting like ```json.";
      "  Provide a structured, actionable diagnostic report. Be thorough, clear, and professional. ";
      "  For the 'riskAssessment', you must provide a detailed breakdown. Go beyond a simple description. Explicitly list at least 2-3 specific 'potentialConsequences' of ignoring the fault, and provide a corresponding list of actionable 'mitigationSteps' to prevent those consequences.";
      "  Include a list of necessary tools and potential replacement parts." ].

Definition userPrompt (text : string) (audioTranscript : option string) : string :=
  lines
    [ "";
      "    Please perform a diagnostic analysis based on the following information.";
      "";
      "    **User's Written Description:**";
      "    " +:+ Js.or_else text "No written description provided.";
      "";
      "    **Transcript from User's Voice Note:**";
      "    " +:+ Js.or_else (default "" audioTranscript) "No voice note provided.";
      "";
      "    Analyze the provided information and generate a complete diagnostic report.";
      "  " ].

(** The request sent by [runDiagnostics]: the image, when there is one, goes
    in front of the text part. *)
Definition runDiagnostics_request
    (text : string) (image : option ImagePayload) (audioTranscript : option string)
  : GenerateContentRequest :=
  let parts := [TextPart (userPrompt text audioTranscript)] in
  let parts :=
    match image with
    | Some img => InlineDataPart img :: parts
    | None => parts
    end in
  {| model := "gemini-2.5-flash";
     contents_parts := parts;
     systemInstruction := the_systemInstruction;
     responseMimeType := "application/json";
     responseSchema := reportSchema;
     temperature := 2 # 10 |}.

(** What a JavaScript [catch] receives: an [Error] with its message, or some
    other thrown value. *)
Inductive Thrown : Type :=
| ThrownError (message : string)
| ThrownOther.

(** How [ai.models.generateContent] settles: it rejects, or it resolves with
    a response whose [text] may be [undefined]. *)
Inductive Upstream : Type :=
| Rejects (e : Thrown)
| Resolves (text : option string).

(** Messages of the errors the engine itself throws inside the [try] block;
    their wording is engine specific and nothing below depends on it. *)
Definition TypeError_message : string :=
  "Cannot read properties of undefined (reading 'trim')".

Definition SyntaxError_message : string :=
  "Unexpected token in JSON".

(** The body of the [try] block after the call: trim, parse, cast.  The cast
    [reportData as DiagnosticReport] is erased at run time, so the parsed
    value is returned as it is. *)
Definition try_block (text : option string) : Thrown + Json.value :=
  match text with
  | None => inl (ThrownError TypeError_message)
  | Some t =>
      let jsonString := Js.trim t in
      match Json.parse jsonString with
      | Some reportData => inr reportData
      | None => inl (ThrownError SyntaxError_message)
      end
  end.

(** The [catch] clause: every failure is rethrown as an [Error]. *)
Definition catch_clause (e : Thrown) : string :=
  match e with
  | ThrownError message => "Failed to get diagnostic report from AI: " +:+ message
  | ThrownOther => "An unknown error occurred during AI diagnosis."
  end.

(** The promise of [runDiagnostics] once the upstream call has settled:
    [inl message] is a rejection with [new Error(message)]. *)
Definition runDiagnostics (up : Upstream) : string + Json.value :=
  match up with
  | Rejects e => inl (catch_clause e)
  | Resolves text =>
      match try_block text with
      | inl e => inl (catch_clause e)
      | inr reportData => inr reportData
      end
  end.

End GeminiService.

(** ** Parsed values at the types of [src/types.ts] *)

(** The cast in [runDiagnostics] is not checked.  [as_DiagnosticReport v] is
    the report that [v] is when it has the shape that [DiagnosticReport]
    declares (with an integer for [step]), and [None] when it has not. *)
Module Typed.

Definition as_string (v : Json.value) : option string :=
  match v with Json.Str s => Some s | _ => None end.

Definition as_strings (v : Json.value) : option (list string) :=
  match v with Json.Array vs => mapM as_string vs | _ => None end.

Definition Severity_of_name (s : string) : option Severity :=
  if String.eqb s "Low" then Some Low
  else if String.eqb s "Medium" then Some Medium
  else if String.eqb s "High" then Some High
  else if String.eqb s "Critical" then Some Critical
  else None.

Definition Priority_of_name (s : string) : option Priority :=
  if String.eqb s "Recommended" then Some Recommended
  else if String.eqb s "Optional" then Some Optional
  else if String.eqb s "Urgent" then Some Urgent
  else None.

Definition as_Severity (v : Json.value) : option Severity :=
  as_string v ≫= Severity_of_name.

Definition as_Priority (v : Json.value) : option Priority :=
  as_string v ≫= Priority_of_name.

(** The integer that a number literal denotes, when it denotes one. *)
Definition as_integer (v : Json.value) : option Z :=
  match v with
  | Json.Number literal =>
      if Schema.is_integer literal then
        let '(m, e) := Schema.mantissa_exponent literal in
        let magnitude :=
          (if 0 <=? e then Z.of_N m * 10 ^ e else Z.of_N m / 10 ^ (- e))%Z in
        match Js.bytes literal with
        | 45%N :: _ => Some (- magnitude)%Z
        | _ => Some magnitude
        end
      else None
  | _ => None
  end.

Definition as_RiskAssessment (v : Json.value) : option RiskAssessment.t :=
  severity ← Json.get "severity" v ≫= as_Severity;
  summary ← Json.get "summary" v ≫= as_string;
  potentialConsequences ← Json.get "potentialConsequences" v ≫= as_strings;
  mitigationSteps ← Json.get "mitigationSteps" v ≫= as_strings;
  Some (RiskAssessment.mk severity summary potentialConsequences mitigationSteps).

Definition as_TroubleshootingStep (v : Json.value) : option TroubleshootingStep.t :=
  step ← Json.get "step" v ≫= as_integer;
  action ← Json.get "action" v ≫= as_string;
  details ← Json.get "details" v ≫= as_string;
  Some (TroubleshootingStep.mk step action details).

Definition as_RecommendedFix (v : Json.value) : option RecommendedFix.t :=
  fix_ ← Json.get "fix" v ≫= as_string;
  priority ← Json.get "priority" v ≫= as_Priority;
  details ← Json.get "details" v ≫= as_string;
  Some (RecommendedFix.mk fix_ priority details).

Definition as_ToolsAndParts (v : Json.value) : option ToolsAndParts.t :=
  tools ← Json.get "tools" v ≫= as_strings;
  parts ← Json.get "parts" v ≫= as_strings;
  Some (ToolsAndParts.mk tools parts).

Definition as_list {A : Type} (f : Json.value -> option A) (v : Json.value)
  : option (list A) :=
  match v with Json.Array vs => mapM f vs | _ => None end.

Definition as_DiagnosticReport (v : Json.value) : option DiagnosticReport.t :=
  faultSummary ← Json.get "faultSummary" v ≫= as_string;
  possibleCauses ← Json.get "possibleCauses" v ≫= as_strings;
  riskAssessment ← Json.get "riskAssessment" v ≫= as_RiskAssessment;
  troubleshootingSteps ←
    Json.get "troubleshootingSteps" v ≫= as_list as_TroubleshootingStep;
  recommendedFixes ← Json.get "recommendedFixes" v ≫= as_list as_RecommendedFix;
  simplifiedExplanation ← Json.get "simplifiedExplanation" v ≫= as_string;
  toolsAndParts ← Json.get "toolsAndParts" v ≫= as_ToolsAndParts;
  Some (DiagnosticReport.mk faultSummary possibleCauses riskAssessment
          troubleshootingSteps recommendedFixes simplifiedExplanation
          toolsAndParts).

End Typed.

(** ** [src/App.tsx] *)

Module App.

(** What the page finds when it loads: whether the browser has a speech
    recognition facility, and the configured [process.env.API_KEY]. *)
Record Env : Type := { SpeechRecognition : bool; API_KEY : option string }.


Record File : Type := { name : string; type : string }.

(** A chat session as [ai.chats.create] is asked to make it. *)
Record Chat : Type := { chat_model : string; chat_systemInstruction : string }.

Inductive Role : Type := user | model.

Record ChatTurn : Type := { role : Role; text : string }.

(** References to chat turn objects. *)
Abbreviation loc := nat (only parsing).

Record State : Type := {
  textInput : string;
  imageFile : option File;
  imageBase64 : option string;
  isRecording : bool;
  audioTranscript : string;
  transcriptRef : string;  (* transcriptRef.current *)
  isLoading : bool;
  error : option string;
  report : option DiagnosticReport.t;
  history : list HistoryEntry.t;
  activeIndex : option nat;
  chat : option Chat;
  chatHistory : list loc;
  isChatLoading : bool;
  chatInput : string;
  alertThreshold : option Severity;  (* [None] is 'None' *)
  activeAlert : option string;
  showAlertSettings : bool;
  recognizing : bool;  (* the recognition engine is started *)
  turns : gmap loc ChatTurn }.  (* the chat turn objects *)

Definition setTextInput (v : string) (s : State) : State :=
  {| textInput := v; imageFile := imageFile s; imageBase64 := imageBase64 s;
     isRecording := isRecording s; audioTranscript := audioTranscript s;
     transcriptRef := transcriptRef s; isLoading := isLoading s; error :=
     error s; report := report s; history := history s; activeIndex :=
     activeIndex s; chat := chat s; chatHistory := chatHistory s;
     isChatLoading := isChatLoading s; chatInput := chatInput s;
     alertThreshold := alertThreshold s; activeAlert := activeAlert s;
     showAlertSettings := showAlertSettings s; recognizing := recognizing s;
     turns := turns s |}.

Definition setImageFile (v : option File) (s : State) : State :=
  {| textInput := textInput s; imageFile := v; imageBase64 := imageBase64 s;
     isRecording := isRecording s; audioTranscript := audioTranscript s;
     transcriptRef := transcriptRef s; isLoading := isLoading s; error :=
     error s; report := report s; history := history s; activeIndex :=
     activeIndex s; chat := chat s; chatHistory := chatHistory s;
     isChatLoading := isChatLoading s; chatInput := chatInput s;
     alertThreshold := alertThreshold s; activeAlert := activeAlert s;
     showAlertSettings := showAlertSettings s; recognizing := recognizing s;
     turns := turns s |}.

Definition setImageBase64 (v : option string) (s : State) : State :=
  {| textInput := textInput s; imageFile := imageFile s; imageBase64 := v;
     isRecording := isRecording s; audioTranscript := audioTranscript s;
     transcriptRef := transcriptRef s; isLoading := isLoading s; error :=
     error s; report := report s; history := history s; activeIndex :=
     activeIndex s; chat := chat s; chatHistory := chatHistory s;
     isChatLoading := isChatLoading s; chatInput := chatInput s;
     alertThreshold := alertThreshold s; activeAlert := activeAlert s;
     showAlertSettings := showAlertSettings s; recognizing := recognizing s;
     turns := turns s |}.

Definition setIsRecording (v : bool) (s : State) : State :=
  {| textInput := textInput s; imageFile := imageFile s; imageBase64 :=
     imageBase64 s; isRecording := v; audioTranscript := audioTranscript s;
     transcriptRef := transcriptRef s; isLoading := isLoading s; error :=
     error s; report := report s; history := history s; activeIndex :=
     activeIndex s; chat := chat s; chatHistory := chatHistory s;
     isChatLoading := isChatLoading s; chatInput := chatInput s;
     alertThreshold := alertThreshold s; activeAlert := activeAlert s;
     showAlertSettings := showAlertSettings s; recognizing := recognizing s;
     turns := turns s |}.

Definition setAudioTranscript (v : string) (s : State) : State :=
  {| textInput := textInput s; imageFile := imageFile s; imageBase64 :=
     imageBase64 s; isRecording := isRecording s; audioTranscript := v;
     transcriptRef := transcriptRef s; isLoading := isLoading s; error :=
     error s; report := report s; history := history s; activeIndex :=
     activeIndex s; chat := chat s; chatHistory := chatHistory s;
     isChatLoading := isChatLoading s; chatInput := chatInput s;
     alertThreshold := alertThreshold s; activeAlert := activeAlert s;
     showAlertSettings := showAlertSettings s; recognizing := recognizing s;
     turns := turns s |}.

Definition set_transcriptRef (v : string) (s : State) : State :=
  {| textInput := textInput s; imageFile := imageFile s; imageBase64 :=
     imageBase64 s; isRecording := isRecording s; audioTranscript :=
     audioTranscript s; transcriptRef := v; isLoading := isLoading s; error :=
     error s; report := report s; history := history s; activeIndex :=
     activeIndex s; chat := chat s; chatHistory := chatHistory s;
     isChatLoading := isChatLoading s; chatInput := chatInput s;
     alertThreshold := alertThreshold s; activeAlert := activeAlert s;
     showAlertSettings := showAlertSettings s; recognizing := recognizing s;
     turns := turns s |}.

Definition setIsLoading (v : bool) (s : State) : State :=
  {| textInput := textInput s; imageFile := imageFile s; imageBase64 :=
     imageBase64 s; isRecording := isRecording s; audioTranscript :=
     audioTranscript s; transcriptRef := transcriptRef s; isLoading := v;
     error := error s; report := report s; history := history s; activeIndex
     := activeIndex s; chat := chat s; chatHistory := chatHistory s;
     isChatLoading := isChatLoading s; chatInput := chatInput s;
     alertThreshold := alertThreshold s; activeAlert := activeAlert s;
     showAlertSettings := showAlertSettings s; recognizing := recognizing s;
     turns := turns s |}.

Definition setError (v : option string) (s : State) : State :=
  {| textInput := textInput s; imageFile := imageFile s; imageBase64 :=
     imageBase64 s; isRecording := isRecording s; audioTranscript :=
     audioTranscript s; transcriptRef := transcriptRef s; isLoading :=
     isLoading s; error := v; report := report s; history := history s;
     activeIndex := activeIndex s; chat := chat s; chatHistory := chatHistory
     s; isChatLoading := isChatLoading s; chatInput := chatInput s;
     alertThreshold := alertThreshold s; activeAlert := activeAlert s;
     showAlertSettings := showAlertSettings s; recognizing := recognizing s;
     turns := turns s |}.

Definition setReport (v : option DiagnosticReport.t) (s : State) : State :=
  {| textInput := textInput s; imageFile := imageFile s; imageBase64 :=
     imageBase64 s; isRecording := isRecording s; audioTranscript :=
     audioTranscript s; transcriptRef := transcriptRef s; isLoading :=
     isLoading s; error := error s; report := v; history := history s;
     activeIndex := activeIndex s; chat := chat s; chatHistory := chatHistory
     s; isChatLoading := isChatLoading s; chatInput := chatInput s;
     alertThreshold := alertThreshold s; activeAlert := activeAlert s;
     showAlertSettings := showAlertSettings s; recognizing := recognizing s;
     turns := turns s |}.

Definition setHistory (v : list HistoryEntry.t) (s : State) : State :=
  {| textInput := textInput s; imageFile := imageFile s; imageBase64 :=
     imageBase64 s; isRecording := isRecording s; audioTranscript :=
     audioTranscript s; transcriptRef := transcriptRef s; isLoading :=
     isLoading s; error := error s; report := report s; history := v;
     activeIndex := activeIndex s; chat := chat s; chatHistory := chatHistory
     s; isChatLoading := isChatLoading s; chatInput := chatInput s;
     alertThreshold := alertThreshold s; activeAlert := activeAlert s;
     showAlertSettings := showAlertSettings s; recognizing := recognizing s;
     turns := turns s |}.

Definition setActiveIndex (v : option nat) (s : State) : State :=
  {| textInput := textInput s; imageFile := imageFile s; imageBase64 :=
     imageBase64 s; isRecording := isRecording s; audioTranscript :=
     audioTranscript s; transcriptRef := transcriptRef s; isLoading :=
     isLoading s; error := error s; report := report s; history := history s;
     activeIndex := v; chat := chat s; chatHistory := chatHistory s;
     isChatLoading := isChatLoading s; chatInput := chatInput s;
     alertThreshold := alertThreshold s; activeAlert := activeAlert s;
     showAlertSettings := showAlertSettings s; recognizing := recognizing s;
     turns := turns s |}.

Definition setChat (v : option Chat) (s : State) : State :=
  {| textInput := textInput s; imageFile := imageFile s; imageBase64 :=
     imageBase64 s; isRecording := isRecording s; audioTranscript :=
     audioTranscript s; transcriptRef := transcriptRef s; isLoading :=
     isLoading s; error := error s; report := report s; history := history s;
     activeIndex := activeIndex s; chat := v; chatHistory := chatHistory s;
     isChatLoading := isChatLoading s; chatInput := chatInput s;
     alertThreshold := alertThreshold s; activeAlert := activeAlert s;
     showAlertSettings := showAlertSettings s; recognizing := recognizing s;
     turns := turns s |}.

Definition setChatHistory (v : list loc) (s : State) : State :=
  {| textInput := textInput s; imageFile := imageFile s; imageBase64 :=
     imageBase64 s; isRecording := isRecording s; audioTranscript :=
     audioTranscript s; transcriptRef := transcriptRef s; isLoading :=
     isLoading s; error := error s; report := report s; history := history s;
     activeIndex := activeIndex s; chat := chat s; chatHistory := v;
     isChatLoading := isChatLoading s; chatInput := chatInput s;
     alertThreshold := alertThreshold s; activeAlert := activeAlert s;
     showAlertSettings := showAlertSettings s; recognizing := recognizing s;
     turns := turns s |}.

Definition setIsChatLoading (v : bool) (s : State) : State :=
  {| textInput := textInput s; imageFile := imageFile s; imageBase64 :=
     imageBase64 s; isRecording := isRecording s; audioTranscript :=
     audioTranscript s; transcriptRef := transcriptRef s; isLoading :=
     isLoading s; error := error s; report := report s; history := history s;
     activeIndex := activeIndex s; chat := chat s; chatHistory := chatHistory
     s; isChatLoading := v; chatInput := chatInput s; alertThreshold :=
     alertThreshold s; activeAlert := activeAlert s; showAlertSettings :=
     showAlertSettings s; recognizing := recognizing s; turns := turns s |}.

Definition setChatInput (v : string) (s : State) : State :=
  {| textInput := textInput s; imageFile := imageFile s; imageBase64 :=
     imageBase64 s; isRecording := isRecording s; audioTranscript :=
     audioTranscript s; transcriptRef := transcriptRef s; isLoading :=
     isLoading s; error := error s; report := report s; history := history s;
     activeIndex := activeIndex s; chat := chat s; chatHistory := chatHistory
     s; isChatLoading := isChatLoading s; chatInput := v; alertThreshold :=
     alertThreshold s; activeAlert := activeAlert s; showAlertSettings :=
     showAlertSettings s; recognizing := recognizing s; turns := turns s |}.

Definition setAlertThreshold (v : option Severity) (s : State) : State :=
  {| textInput := textInput s; imageFile := imageFile s; imageBase64 :=
     imageBase64 s; isRecording := isRecording s; audioTranscript :=
     audioTranscript s; transcriptRef := transcriptRef s; isLoading :=
     isLoading s; error := error s; report := report s; history := history s;
     activeIndex := activeIndex s; chat := chat s; chatHistory := chatHistory
     s; isChatLoading := isChatLoading s; chatInput := chatInput s;
     alertThreshold := v; activeAlert := activeAlert s; showAlertSettings :=
     showAlertSettings s; recognizing := recognizing s; turns := turns s |}.

Definition setActiveAlert (v : option string) (s : State) : State :=
  {| textInput := textInput s; imageFile := imageFile s; imageBase64 :=
     imageBase64 s; isRecording := isRecording s; audioTranscript :=
     audioTranscript s; transcriptRef := transcriptRef s; isLoading :=
     isLoading s; error := error s; report := report s; history := history s;
     activeIndex := activeIndex s; chat := chat s; chatHistory := chatHistory
     s; isChatLoading := isChatLoading s; chatInput := chatInput s;
     alertThreshold := alertThreshold s; activeAlert := v; showAlertSettings
     := showAlertSettings s; recognizing := recognizing s; turns := turns s
     |}.

Definition setShowAlertSettings (v : bool) (s : State) : State :=
  {| textInput := textInput s; imageFile := imageFile s; imageBase64 :=
     imageBase64 s; isRecording := isRecording s; audioTranscript :=
     audioTranscript s; transcriptRef := transcriptRef s; isLoading :=
     isLoading s; error := error s; report := report s; history := history s;
     activeIndex := activeIndex s; chat := chat s; chatHistory := chatHistory
     s; isChatLoading := isChatLoading s; chatInput := chatInput s;
     alertThreshold := alertThreshold s; activeAlert := activeAlert s;
     showAlertSettings := v; recognizing := recognizing s; turns := turns s
     |}.

Definition set_recognizing (v : bool) (s : State) : State :=
  {| textInput := textInput s; imageFile := imageFile s; imageBase64 :=
     imageBase64 s; isRecording := isRecording s; audioTranscript :=
     audioTranscript s; transcriptRef := transcriptRef s; isLoading :=
     isLoading s; error := error s; report := report s; history := history s;
     activeIndex := activeIndex s; chat := chat s; chatHistory := chatHistory
     s; isChatLoading := isChatLoading s; chatInput := chatInput s;
     alertThreshold := alertThreshold s; activeAlert := activeAlert s;
     showAlertSettings := showAlertSettings s; recognizing := v; turns :=
     turns s |}.

Definition set_turns (v : gmap loc ChatTurn) (s : State) : State :=
  {| textInput := textInput s; imageFile := imageFile s; imageBase64 :=
     imageBase64 s; isRecording := isRecording s; audioTranscript :=
     audioTranscript s; transcriptRef := transcriptRef s; isLoading :=
     isLoading s; error := error s; report := report s; history := history s;
     activeIndex := activeIndex s; chat := chat s; chatHistory := chatHistory
     s; isChatLoading := isChatLoading s; chatInput := chatInput s;
     alertThreshold := alertThreshold s; activeAlert := activeAlert s;
     showAlertSettings := showAlertSettings s; recognizing := recognizing s;
     turns := v |}.

Definition initial : State :=
  {| textInput := ""; imageFile := None; imageBase64 := None;
     isRecording := false; audioTranscript := ""; transcriptRef := "";
     isLoading := false; error := None; report := None; history := [];
     activeIndex := None; chat := None; chatHistory := [];
     isChatLoading := false; chatInput := ""; alertThreshold := None;
     activeAlert := None; showAlertSettings := false; recognizing := false;
     turns := ∅ |}.

(** Calls that leave the page. *)
Inductive Call : Type :=
| GenerateContent (req : GeminiService.GenerateContentRequest)
| SendMessageStream (session : Chat) (message : string).

(** *** Speech capture *)

Record SpeechRecognitionResult : Type := {
  isFinal : bool;
  transcript : string }.               (* [results[i][0].transcript] *)

Record SpeechRecognitionEvent : Type := {
  resultIndex : nat;
  results : list SpeechRecognitionResult }.

(** [recognition.start()]: [None] is the [InvalidStateError] thrown when the
    engine is already started. *)
Definition recognition_start (s : State) : option State :=
  if recognizing s then None else Some (set_recognizing true s).

(** [recognition.stop()] asks the engine to finish; the engine reports that
    it has stopped with the [end] event, see [onend].  (The cleanup of the
    effect that installs the callbacks asks for the same whenever the
    recording flag changes.) *)
Definition recognition_stop (s : State) : State := s.

(** The loop of [recognition.onresult]: the pair (interim, final). *)
Definition onresult_loop (event : SpeechRecognitionEvent) : string * string :=
  fold_left
    (fun '(interimTranscript, finalTranscript) r =>
       if isFinal r
       then (interimTranscript, finalTranscript +:+ transcript r)
       else (interimTranscript +:+ transcript r, finalTranscript))
    (drop (resultIndex event) (results event))
    ("", "").

Definition onresult (event : SpeechRecognitionEvent) (s : State) : State :=
  let '(interimTranscript, finalTranscript) := onresult_loop event in
  let s := set_transcriptRef finalTranscript s in
  setAudioTranscript (finalTranscript +:+ interimTranscript) s.

Definition onerror (event_error : string) (s : State) : State :=
  let s := setError (Some ("Speech recognition error: " +:+ event_error)) s in
  setIsRecording false s.

(** The engine has stopped; it is started again while the recording flag of
    the render that installed the handler is set. *)
Definition onend (s : State) : State :=
  let s := set_recognizing false s in
  if isRecording s then
    match recognition_start s with
    | Some s' => s'
    | None => setIsRecording false s
    end
  else s.

(** When [recognition.start()] throws, the exception leaves the handler and
    the two updates made before it stay. *)
Definition handleRecordClick (env : Env) (s : State) : State :=
  if negb (SpeechRecognition env) then
    setError (Some "Sorry, your browser does not support Speech Recognition.") s
  else if isRecording s then
    let s := recognition_stop s in
    let s := setIsRecording false s in
    setAudioTranscript (transcriptRef s) s
  else
    let s := set_transcriptRef "" s in
    let s := setAudioTranscript "" s in
    match recognition_start s with
    | Some s' => setIsRecording true s'
    | None => s
    end.

Definition clearImage (s : State) : State :=
  let s := setImageFile None s in
  setImageBase64 None s.

(** [handleImageChange] with [e.target.files?.[0]], and the [onloadend] of
    the reader it starts, with [reader.result.split(',')[1]]. *)
Definition handleImageChange (file : option File) (s : State) : State :=
  match file with
  | Some f => setImageFile (Some f) s
  | None => s
  end.

Definition reader_onloadend (base64String : option string) (s : State) : State :=
  setImageBase64 base64String s.

(** [isRecording] is the flag the calling handler closed over. *)
Definition clearInputs (isRecording : bool) (s : State) : State :=
  let s := setTextInput "" s in
  let s := clearImage s in
  let s := setAudioTranscript "" s in
  let s := set_transcriptRef "" s in
  if isRecording then setIsRecording false (recognition_stop s) else s.

(** *** Submitting a case *)

Definition severityLevels (s : Severity) : Z :=
  match s with Low => 1 | Medium => 2 | High => 3 | Critical => 4 end.

Definition alert_message (severity threshold : Severity) : string :=
  "Proactive Alert: The detected risk level is " +:+ Js.dq
  +:+ Severity_name severity +:+ Js.dq
  +:+ ", which meets or exceeds your threshold of " +:+ Js.dq
  +:+ Severity_name threshold +:+ Js.dq +:+ ".".

(** A message that names a severity and then a threshold. *)
Definition names_both (severity threshold : Severity) (message : string) : Prop :=
  exists a b c,
    message = a +:+ Severity_name severity +:+ b +:+ Severity_name threshold +:+ c.

(** The session opened next to a new report. *)
Definition submit_chat (newReport : DiagnosticReport.t) : Chat :=
  {| chat_model := "gemini-2.5-flash";
     chat_systemInstruction :=
       lines
         [ "You are OmniDiag, an expert AI diagnostic assistant. You've provided the user with a diagnostic report. Now, you must answer their follow-up questions. Maintain the persona of a helpful, expert assistant.";
           "                ";
           "                HERE IS THE CONTEXT of the report you generated:";
           "                ---";
           "                Fault Summary: " +:+ DiagnosticReport.faultSummary newReport;
           "                Possible Causes: "
             +:+ Js.join ", " (DiagnosticReport.possibleCauses newReport);
           "                Risk: "
             +:+ Severity_name (RiskAssessment.severity (DiagnosticReport.riskAssessment newReport))
             +:+ " - "
             +:+ RiskAssessment.summary (DiagnosticReport.riskAssessment newReport);
           "                ---";
           "                Base all your answers on this context and the user's follow-up questions." ] |}.

(** The part of [handleSubmit] before the [await]: the validation, the reset
    and the call to [runDiagnostics]. *)
Definition handleSubmit (s : State) : State * list Call :=
  if negb (Js.truthy (textInput s)) && negb (Js.truthy_opt (imageBase64 s))
     && negb (Js.truthy (audioTranscript s))
  then
    (setError (Some "Please provide a description, image, or voice note to start the diagnosis.") s,
     [])
  else
    let imagePayload :=
      match imageFile s, imageBase64 s with
      | Some f, Some b =>
          if Js.truthy b
          then Some {| GeminiService.mimeType := type f; GeminiService.data := b |}
          else None
      | _, _ => None
      end in
    let req :=
      GeminiService.runDiagnostics_request
        (textInput s) imagePayload (Some (audioTranscript s)) in
    let s := setIsLoading true s in
    let s := setError None s in
    let s := setReport None s in
    let s := setActiveIndex None s in
    let s := setChat None s in
    let s := setChatHistory [] s in
    let s := setActiveAlert None s in
    (s, [GenerateContent req]).

(** The validation of [handleSubmit] lets the state through: one of the
    three inputs is truthy. *)
Definition has_input (s : State) : bool :=
  Js.truthy (textInput s) || Js.truthy_opt (imageBase64 s)
  || Js.truthy (audioTranscript s).

(** The rest of the [try] block, run when [runDiagnostics] has resolved with
    [newReport] (read at its declared type).  [snap] is the state of the
    render whose [handleSubmit] was called, [now] is [Date.now()] and [date]
    is [new Date()]. *)
Definition handleSubmit_try
    (env : Env) (snap : State) (newReport : DiagnosticReport.t) (now date : Z)
    (s : State) : State :=
  let severity := RiskAssessment.severity (DiagnosticReport.riskAssessment newReport) in
  let s := setReport (Some newReport) s in
  let s :=
    match alertThreshold snap with
    | Some threshold =>
        if (severityLevels threshold <=? severityLevels severity)%Z
        then setActiveAlert (Some (alert_message severity threshold)) s
        else s
    | None => s
    end in
  let newHistoryEntry :=
    {| HistoryEntry.id := pretty now;
       HistoryEntry.timestamp := date;
       HistoryEntry.report := newReport;
       HistoryEntry.userInput :=
         {| UserInput.text := textInput snap;
            UserInput.image := bool_decide (is_Some (imageFile snap));
            UserInput.audio := transcriptRef s |} |} in
  let s := setHistory (newHistoryEntry :: history s) s in
  let s := setActiveIndex (Some 0%nat) s in
  let s :=
    if Js.truthy_opt (API_KEY env) then setChat (Some (submit_chat newReport)) s
    else s in
  clearInputs (isRecording snap) s.

(** The [catch] clause, with the message of the rejection. *)
Definition handleSubmit_catch (message : string) (s : State) : State :=
  setError (Some (Js.or_else message "An unexpected error occurred.")) s.

(** [handleSubmit] from the point where the promise of [runDiagnostics] has
    settled, on the state [s] current at that point. *)
Definition handleSubmit_settled
    (env : Env) (snap : State) (result : string + DiagnosticReport.t)
    (now date : Z) (s : State) : State :=
  let s :=
    match result with
    | inr newReport => handleSubmit_try env snap newReport now date s
    | inl message => handleSubmit_catch message s
    end in
  setIsLoading false s.

(** A whole submission with nothing else happening in between. *)
Definition submitCase
    (env : Env) (result : string + DiagnosticReport.t) (now date : Z)
    (s : State) : State :=
  match handleSubmit s with
  | (s1, []) => s1
  | (s1, _ :: _) => handleSubmit_settled env s result now date s1
  end.

(** *** History *)

Definition select_chat (entry : HistoryEntry.t) : Chat :=
  let newReport := HistoryEntry.report entry in
  {| chat_model := "gemini-2.5-flash";
     chat_systemInstruction :=
       lines
         [ "You are OmniDiag, an expert AI diagnostic assistant. You've provided the user with a diagnostic report based on their initial submission. Now, you must answer their follow-up questions.";
           "            ";
           "            CONTEXT of the report you generated:";
           "            ---";
           "            Fault Summary: " +:+ DiagnosticReport.faultSummary newReport;
           "            Possible Causes: "
             +:+ Js.join ", " (DiagnosticReport.possibleCauses newReport);
           "            Risk: "
             +:+ Severity_name (RiskAssessment.severity (DiagnosticReport.riskAssessment newReport))
             +:+ " - "
             +:+ RiskAssessment.summary (DiagnosticReport.riskAssessment newReport);
           "            ---";
           "            The user's original submission included: "
             +:+ (if Js.truthy (UserInput.text (HistoryEntry.userInput entry))
                  then "A text description." else "")
             +:+ " "
             +:+ (if UserInput.image (HistoryEntry.userInput entry)
                  then "An image." else "")
             +:+ " "
             +:+ (if Js.truthy (UserInput.audio (HistoryEntry.userInput entry))
                  then "A voice note." else "");
           "            Base all your answers on this context and the user's follow-up questions." ] |}.

Definition handleSelectHistory
    (env : Env) (entry : HistoryEntry.t) (index : nat) (s : State)
  : State * list Call :=
  let newReport := HistoryEntry.report entry in
  let s := setReport (Some newReport) s in
  let s := setActiveIndex (Some index) s in
  let s := setChatHistory [] s in
  let s := setActiveAlert None s in
  let s :=
    if Js.truthy_opt (API_KEY env) then setChat (Some (select_chat entry)) s
    else s in
  (s, []).

(** A click on the [index]-th button of the history list, which is rendered
    from [history.map((entry, index) => ...)]. *)
Definition selectHistory (env : Env) (index : nat) (s : State)
  : State * list Call :=
  match history s !! index with
  | Some entry => handleSelectHistory env entry index s
  | None => (s, [])
  end.

(** [confirmed] is the answer of [window.confirm]. *)
Definition handleClearHistory (confirmed : bool) (s : State) : State :=
  if confirmed then
    let s := setHistory [] s in
    let s := setReport None s in
    let s := setActiveIndex None s in
    let s := setChat None s in
    setChatHistory [] s
  else s.

(** The "Clear History" button exists only while [history.length > 0]. *)
Definition clearHistory (confirmed : bool) (s : State) : State :=
  match history s with
  | [] => s
  | _ :: _ => handleClearHistory confirmed s
  end.

(** *** Follow-up chat *)

(** The object literals [{ role: 'user', text }] and [{ role: 'model', text }]. *)
Definition user_turn (t : string) : ChatTurn := {| role := user; text := t |}.

Definition model_turn (t : string) : ChatTurn := {| role := model; text := t |}.

(** The chat log as it reads: the turn object behind each reference. *)
Definition chat_log (s : State) : list (option ChatTurn) :=
  (fun l => turns s !! l) <$> chatHistory s.

(** [setChatHistory(prev => [...prev, {role, text}])]: a new turn object at
    the end of a copy of the list. *)
Definition append_turn (t : ChatTurn) (s : State) : State :=
  let l := fresh (dom (turns s)) in
  let s := set_turns (<[l := t]> (turns s)) s in
  setChatHistory (chatHistory s ++ [l]) s.

(** [a += b] where [b] is [string | undefined]. *)
Definition append_text (a : string) (b : option string) : string :=
  a +:+ default "undefined" b.

(** The updater run for one chunk.  The list is copied, the turn object at
    its last index is the one of [prev] and is changed in place.  [None]: the
    list is empty, [newHistory[-1]] is [undefined] and the updater throws a
    [TypeError]. *)
Definition apply_chunk (chunkText : option string) (s : State) : option State :=
  l ← last (chatHistory s);
  Some (set_turns
          (alter (fun t => {| role := role t; text := append_text (text t) chunkText |})
                 l (turns s))
          s).

Definition apology : string := "Sorry, I encountered an error. Please try again.".

(** The part of [handleSendChatMessage] before the [await]. *)
Definition handleSendChatMessage (s : State) : State * list Call :=
  match chat s with
  | Some session =>
      if negb (Js.truthy (Js.trim (chatInput s))) || isChatLoading s then (s, [])
      else
        let text := chatInput s in
        let s := setChatInput "" s in
        let s := append_turn (user_turn text) s in
        let s := setIsChatLoading true s in
        (s, [SendMessageStream session text])
  | None => (s, [])
  end.

(** [sendMessageStream] has resolved with a stream. *)
Definition stream_opened (s : State) : State :=
  let s := setIsChatLoading false s in
  append_turn (model_turn "") s.

(** The [catch] clause. *)
Definition handleSendChatMessage_catch (s : State) : State :=
  let s := append_turn (model_turn apology) s in
  setIsChatLoading false s.

(** The [for await] loop over the chunks that arrive, in their order. *)
Fixpoint for_await (chunks : list (option string)) (s : State) : option State :=
  match chunks with
  | [] => Some s
  | chunkText :: rest => s' ← apply_chunk chunkText s; for_await rest s'
  end.

(** How the reply goes: the call rejects, or it resolves with a stream that
    yields its chunks and then ends or throws. *)
Inductive StreamEnd : Type := Ends | Throws.

Inductive Reply : Type :=
| CallRejects
| Stream (chunks : list (option string)) (e : StreamEnd).

(** A whole [handleSendChatMessage] with nothing else happening in between.
    [None]: an updater threw. *)
Definition sendChatMessage (reply : Reply) (s : State) : option State :=
  match handleSendChatMessage s with
  | (s1, []) => Some s1
  | (s1, _ :: _) =>
      match reply with
      | CallRejects => Some (handleSendChatMessage_catch s1)
      | Stream chunks e =>
          s2 ← for_await chunks (stream_opened s1);
          match e with
          | Ends => Some s2
          | Throws => Some (handleSendChatMessage_catch s2)
          end
      end
  end.

(** The text a turn that starts empty holds after the loop has run over
    [chunks]. *)
Definition received (chunks : list (option string)) : string :=
  fold_left append_text chunks "".

(** The fragments of a reply put together in their order. *)
Definition concat_fragments (fragments : list string) : string :=
  fold_right String.append "" fragments.

(** Every reference of the chat log has its turn object. *)
Definition turns_allocated (s : State) : Prop :=
  Forall (fun l => is_Some (turns s !! l)) (chatHistory s).

(** *** The page as a transition system *)

(** One event: an input of the user, a callback of the recognition engine or
    of the file reader, or a point where an awaited call settles or a stream
    yields.  The settling events are enabled in every state, which includes
    every order in which pending calls can settle. *)
Inductive step (env : Env) : State -> State -> Prop :=
| step_textInput s v : step env s (setTextInput v s)
| step_imageChange s file : step env s (handleImageChange file s)
| step_imageLoaded s b : step env s (reader_onloadend b s)
| step_clearImage s : step env s (clearImage s)
| step_recordClick s : step env s (handleRecordClick env s)
| step_onresult s event :
    SpeechRecognition env = true -> step env s (onresult event s)
| step_onerror s e :
    SpeechRecognition env = true -> step env s (onerror e s)
| step_onend s :
    SpeechRecognition env = true -> step env s (onend s)
| step_threshold s t : step env s (setAlertThreshold t s)
| step_alertSettings s :
    step env s (setShowAlertSettings (negb (showAlertSettings s)) s)
| step_dismissAlert s : step env s (setActiveAlert None s)
| step_submit s :
    isLoading s = false -> step env s (handleSubmit s).1
| step_submit_settled s snap result now date :
    step env s (handleSubmit_settled env snap result now date s)
| step_selectHistory s index : step env s (selectHistory env index s).1
| step_clearHistory s confirmed : step env s (clearHistory confirmed s)
| step_chatInput s v : step env s (setChatInput v s)
| step_sendChatMessage s : step env s (handleSendChatMessage s).1
| step_stream_opened s : step env s (stream_opened s)
| step_chunk s chunkText s' :
    apply_chunk chunkText s = Some s' -> step env s s'
| step_chat_failed s : step env s (handleSendChatMessage_catch s).

Definition reachable (env : Env) (s : State) : Prop := rtc (step env) initial s.

End App.

(** ** Sample data *)

Module Sample.

Import App.

(** A response with every field of the schema. *)
Definition full_response : string :=
  Js.quoted " {'faultSummary':'Fan failure','possibleCauses':['Worn bearing','Dust'],'riskAssessment':{'severity':'High','summary':'Overheating','potentialConsequences':['Shutdown'],'mitigationSteps':['Power off']},'troubleshootingSteps':[{'step':1,'action':'Inspect','details':'Look at the blades'}],'recommendedFixes':[{'fix':'Replace fan','priority':'Urgent','details':'Same model'}],'simplifiedExplanation':'The fan is broken.','toolsAndParts':{'tools':['Screwdriver'],'parts':['Fan']}} ".

(** The full response wrapped in a markdown fence. *)
Definition fenced_response : string :=
  lines ["```json"; full_response; "```"].

(** The same response without [riskAssessment.severity]. *)
Definition response_without_severity : string :=
  Js.quoted "{'faultSummary':'Fan failure','possibleCauses':['Worn bearing','Dust'],'riskAssessment':{'summary':'Overheating','potentialConsequences':['Shutdown'],'mitigationSteps':['Power off']},'troubleshootingSteps':[{'step':1,'action':'Inspect','details':'Look at the blades'}],'recommendedFixes':[{'fix':'Replace fan','priority':'Urgent','details':'Same model'}],'simplifiedExplanation':'The fan is broken.','toolsAndParts':{'tools':['Screwdriver'],'parts':['Fan']}}".

Definition fan_report (severity : Severity) : DiagnosticReport.t :=
  {| DiagnosticReport.faultSummary := "Fan failure";
     DiagnosticReport.possibleCauses := ["Worn bearing"; "Dust"];
     DiagnosticReport.riskAssessment :=
       {| RiskAssessment.severity := severity;
          RiskAssessment.summary := "Overheating";
          RiskAssessment.potentialConsequences := ["Shutdown"];
          RiskAssessment.mitigationSteps := ["Power off"] |};
     DiagnosticReport.troubleshootingSteps :=
       [ {| TroubleshootingStep.step := 1;
            TroubleshootingStep.action := "Inspect";
            TroubleshootingStep.details := "Look at the blades" |} ];
     DiagnosticReport.recommendedFixes :=
       [ {| RecommendedFix.fix_ := "Replace fan";
            RecommendedFix.priority := Urgent;
            RecommendedFix.details := "Same model" |} ];
     DiagnosticReport.simplifiedExplanation := "The fan is broken.";
     DiagnosticReport.toolsAndParts :=
       {| ToolsAndParts.tools := ["Screwdriver"]; ToolsAndParts.parts := ["Fan"] |} |}.

Definition env : Env := {| SpeechRecognition := true; API_KEY := Some "key" |}.

(** A case typed in, with the alert threshold at High. *)
Definition typed_case : State :=
  setAlertThreshold (Some High) (setTextInput "The fan is noisy" initial).

(** The session after a first diagnosis of Critical severity. *)
Definition after_critical : State :=
  submitCase env (inr (fan_report Critical)) 1700000000000 1700000000000 typed_case.

(** The same session with a follow-up question typed in. *)
Definition asking : State := setChatInput "Is it safe to run?" after_critical.


(** The first exchange of the chat, and a second question typed in. *)
Definition asking_again : State :=
  setChatInput "What should I check first?"
    (default asking
       (sendChatMessage (Stream [Some "Not "; Some "until repaired."] Ends) asking)).

(** Dictation: a finalized phrase, then the stream ends and is restarted,
    then an interim phrase. *)
Definition recording : State :=
  handleRecordClick env initial.

Definition first_phrase : SpeechRecognitionEvent :=
  {| resultIndex := 0;
     results := [ {| isFinal := true; transcript := "the fan " |} ] |}.

Definition second_phrase : SpeechRecognitionEvent :=
  {| resultIndex := 0;
     results := [ {| isFinal := false; transcript := "is noi" |} ] |}.

End Sample.

(** ** The risk meter of the report panel ([src/App.tsx], rendering) *)

Module Render.

Record SeverityStyle : Type := {
  level : Z;
  color : string;
  textColor : string }.

Definition severityConfig (s : Severity) : SeverityStyle :=
  match s with
  | Low => {| level := 1; color := "bg-green-500/80"; textColor := "text-green-300" |}
  | Medium => {| level := 2; color := "bg-yellow-500/80"; textColor := "text-yellow-300" |}
  | High => {| level := 3; color := "bg-orange-500/80"; textColor := "text-orange-300" |}
  | Critical => {| level := 4; color := "bg-red-600/80"; textColor := "text-red-300" |}
  end.

(** The class of the bar at [index] of
    [Array.from({ length: 4 }).map((_, index) => ...)]: the colour of the
    severity when [index < config.level], the grey one otherwise. *)
Definition bar_colors (s : Severity) : list string :=
  let config := severityConfig s in
  (fun index : nat =>
     if (Z.of_nat index <? level config)%Z then color config else "bg-slate-600")
  <$> seq 0 4.

End Render.

(** ** More sample data *)

Module Cases.

Import App.

(** A result event in which an interim segment comes before a final one. *)
Definition mixed_event : SpeechRecognitionEvent :=
  {| resultIndex := 1;
     results := [ {| isFinal := true; transcript := "skipped " |};
                  {| isFinal := false; transcript := "is noi" |};
                  {| isFinal := true; transcript := "the fan " |} ] |}.

(** An image file has been chosen and its data has not arrived yet. *)
Definition image_pending : State :=
  handleImageChange (Some {| name := "fan.jpg"; type := "image/jpeg" |}) initial.

(** The data has arrived, and a description is typed in. *)
Definition image_case : State :=
  setTextInput "The fan is noisy"
    (reader_onloadend (Some "QUJD") image_pending).


(** A question has been sent in the session of the Critical report and the
    reply has not settled. *)
Definition awaiting_reply : State := (handleSendChatMessage Sample.asking).1.

End Cases.

(** * Properties *)

(** ** The diagnostic client *)

Section DiagnosticClient.

Import GeminiService.

Lemma catch_clause_truthy (e : Thrown) : Js.truthy (catch_clause e) = true.
Proof. destruct e; reflexivity. Qed.

(** A rejection of [runDiagnostics] always carries a message. *)
Lemma runDiagnostics_message_truthy (up : Upstream) (message : string) :
  runDiagnostics up = inl message -> Js.truthy message = true.
Proof.
  unfold runDiagnostics. destruct up as [e | text].
  - intros [= <-]. apply catch_clause_truthy.
  - destruct (try_block text) as [e | v]; [| discriminate].
    intros [= <-]. apply catch_clause_truthy.
Qed.

(** An upstream failure is a rejection too. *)
Lemma runDiagnostics_upstream_rejects (e : Thrown) :
  runDiagnostics (Rejects e) = inl (catch_clause e).
Proof. reflexivity. Qed.

(** C1, as amended.  When the trimmed text of the response is not valid
    JSON, [runDiagnostics] rejects with an [Error] whose message starts with
    "Failed to get diagnostic report from AI: " and returns nothing.  When it
    is valid JSON, the parsed value is returned as it is: no field of the
    schema is looked at. *)
Theorem runDiagnostics_rejects_exactly_invalid_json (text : string) :
  (Json.parse (Js.trim text) = None ->
   exists m, runDiagnostics (Resolves (Some text))
             = inl ("Failed to get diagnostic report from AI: " +:+ m))
  /\ (forall v, Json.parse (Js.trim text) = Some v ->
                runDiagnostics (Resolves (Some text)) = inr v).
Proof.
  unfold runDiagnostics, try_block. split.
  - intros ->. exists SyntaxError_message. reflexivity.
  - intros v ->. reflexivity.
Qed.

Lemma runDiagnostics_rejects_exactly_invalid_json_witness :
  (exists m, runDiagnostics (Resolves (Some Sample.fenced_response))
             = inl ("Failed to get diagnostic report from AI: " +:+ m))
  /\ exists v, runDiagnostics (Resolves (Some Sample.full_response)) = inr v
               /\ Schema.conforms reportSchema v = true.
Proof.
  split.
  - apply (proj1 (runDiagnostics_rejects_exactly_invalid_json
                    Sample.fenced_response)).
    vm_compute. reflexivity.
  - destruct (Json.parse (Js.trim Sample.full_response)) as [v |] eqn:E;
      [| vm_compute in E; discriminate E].
    exists v. split.
    + apply (proj2 (runDiagnostics_rejects_exactly_invalid_json Sample.full_response)).
      exact E.
    + vm_compute in E. injection E as <-. vm_compute. reflexivity.
Defined.

(** C1, counterexample.  A response that is valid JSON and has everything
    but [riskAssessment.severity] is not rejected: [runDiagnostics] returns
    the parsed value, which lacks the field and does not conform to
    [reportSchema]. *)
Lemma runDiagnostics_returns_report_without_severity :
  exists v,
    runDiagnostics (Resolves (Some Sample.response_without_severity)) = inr v
    /\ (Json.get "riskAssessment" v ≫= Json.get "severity") = None
    /\ Schema.conforms reportSchema v = false
    /\ forall m, runDiagnostics (Resolves (Some Sample.response_without_severity))
                 <> inl m.
Proof.
  eexists. split; [vm_compute; reflexivity |].
  split; [vm_compute; reflexivity |].
  split; [vm_compute; reflexivity |].
  intros m. vm_compute. discriminate.
Qed.

(** *** Responses that honour the schema have the declared type *)

Import Schema Typed.

Lemma conforms_field (d : option string) (props : list (string * Schema.t))
    (req : list string) (v : Json.value) (k : string) (sch : Schema.t) :
  conforms (OBJECT d props req) v = true ->
  In k req -> In (k, sch) props ->
  exists w, Json.get k v = Some w /\ conforms sch w = true.
Proof.
  destruct v as [| | | | | ms]; try discriminate. cbn [conforms].
  intros H Hreq Hprop. apply andb_prop in H as [Hr Hp].
  assert (Hsome : is_Some (Json.assoc_last k ms)).
  { rewrite forallb_forall in Hr. apply Hr in Hreq.
    now apply bool_decide_eq_true in Hreq. }
  destruct Hsome as [w Hw]. exists w. split; [exact Hw |].
  induction props as [| [k' s'] props IH]; [destruct Hprop |].
  apply andb_prop in Hp as [Hhere Hrest].
  destruct Hprop as [[= -> ->] | Hin]; [| now apply IH].
  now rewrite Hw in Hhere.
Qed.

Lemma conforms_as_string (d : option string) (w : Json.value) :
  conforms (STRING d None) w = true -> is_Some (as_string w).
Proof. destruct w; try discriminate. cbn. eauto. Qed.

Lemma conforms_as_strings (d : option string) (w : Json.value) :
  conforms (ARRAY d (STRING None None)) w = true -> is_Some (as_strings w).
Proof.
  destruct w as [| | | | vs |]; try discriminate. cbn [conforms as_strings].
  intros H. apply mapM_is_Some, Forall_forall. intros x Hx.
  rewrite forallb_forall in H. apply (conforms_as_string None), H.
  now apply list_elem_of_In.
Qed.

Lemma conforms_as_Severity (d : option string) (w : Json.value) :
  conforms (STRING d (Some ["Low"; "Medium"; "High"; "Critical"])) w = true ->
  is_Some (as_Severity w).
Proof.
  destruct w as [| | | s | |]; try discriminate.
  cbn [conforms as_Severity as_string mbind option_bind].
  unfold string_in, Severity_of_name. cbn [existsb].
  destruct (String.eqb s "Low"), (String.eqb s "Medium"),
    (String.eqb s "High"), (String.eqb s "Critical"); try discriminate; eauto.
Qed.

Lemma conforms_as_Priority (d : option string) (w : Json.value) :
  conforms (STRING d (Some ["Recommended"; "Optional"; "Urgent"])) w = true ->
  is_Some (as_Priority w).
Proof.
  destruct w as [| | | s | |]; try discriminate.
  cbn [conforms as_Priority as_string mbind option_bind].
  unfold string_in, Priority_of_name. cbn [existsb].
  destruct (String.eqb s "Recommended"), (String.eqb s "Optional"),
    (String.eqb s "Urgent"); try discriminate; eauto.
Qed.

Lemma conforms_as_integer (w : Json.value) :
  conforms INTEGER w = true -> is_Some (as_integer w).
Proof.
  destruct w as [| | n | | |]; try discriminate. cbn [conforms as_integer].
  intros ->. destruct (mantissa_exponent n) as [m e].
  destruct (Js.bytes n) as [| [| p] r]; eauto.
  do 6 (destruct p; eauto).
Qed.

Lemma conforms_as_list {A : Type} (f : Json.value -> option A) (sch : Schema.t)
    (Hf : forall x, conforms sch x = true -> is_Some (f x))
    (d : option string) (w : Json.value) :
  conforms (ARRAY d sch) w = true -> is_Some (as_list f w).
Proof.
  destruct w as [| | | | vs |]; try discriminate.
  cbn [conforms as_list]. intros H.
  apply mapM_is_Some, Forall_forall. intros x Hx.
  rewrite forallb_forall in H. apply Hf, H. now apply list_elem_of_In.
Qed.

(** Takes the field [k] of the conforming object of [H], leaving its value
    [w] with [Hw : Json.get k _ = Some w] and [Hc : conforms _ w = true]. *)
Ltac take_field H k w Hw Hc :=
  let Hf := fresh "Hf" in
  epose proof (conforms_field _ _ _ _ k _ H) as Hf;
  destruct Hf as (w & Hw & Hc);
    [ cbn; tauto
    | cbn; repeat (first [left; reflexivity | right])
    | ].

(** Reads the field [k] with the reader that [lemma] is about. *)
Ltac read_field H k lemma :=
  let w := fresh "w" in
  let Hw := fresh "Hw" in
  let Hc := fresh "Hc" in
  let x := fresh "x" in
  take_field H k w Hw Hc;
  apply lemma in Hc; destruct Hc as [x Hc];
  rewrite Hw; cbn [mbind option_bind]; rewrite Hc; cbn [mbind option_bind];
  clear w Hw Hc.

Lemma conforms_as_RiskAssessment (d : option string) (w : Json.value) :
  conforms
    (OBJECT d
       [ ("severity",
          STRING (Some "The severity level of the risk.")
            (Some ["Low"; "Medium"; "High"; "Critical"]));
         ("summary", STRING (Some "A brief summary of the overall risk.") None);
         ("potentialConsequences",
          ARRAY (Some "A list of specific, potential negative consequences if the issue is not addressed.")
            (STRING None None));
         ("mitigationSteps",
          ARRAY (Some "A list of actionable steps to mitigate or prevent the identified risks.")
            (STRING None None)) ]
       ["severity"; "summary"; "potentialConsequences"; "mitigationSteps"]) w
  = true ->
  is_Some (as_RiskAssessment w).
Proof.
  intros H. unfold as_RiskAssessment.
  read_field H "severity" conforms_as_Severity.
  read_field H "summary" conforms_as_string.
  read_field H "potentialConsequences" conforms_as_strings.
  read_field H "mitigationSteps" conforms_as_strings.
  eauto.
Qed.

Lemma conforms_as_TroubleshootingStep (w : Json.value) :
  conforms
    (OBJECT None
       [ ("step", INTEGER);
         ("action", STRING (Some "The action to perform for this step.") None);
         ("details",
          STRING (Some "Additional details or expected outcomes for the action.") None) ]
       ["step"; "action"; "details"]) w
  = true ->
  is_Some (as_TroubleshootingStep w).
Proof.
  intros H. unfold as_TroubleshootingStep.
  read_field H "step" conforms_as_integer.
  read_field H "action" conforms_as_string.
  read_field H "details" conforms_as_string.
  eauto.
Qed.

Lemma conforms_as_RecommendedFix (w : Json.value) :
  conforms
    (OBJECT None
       [ ("fix", STRING (Some "The recommended fix.") None);
         ("priority",
          STRING (Some "The priority of this fix.")
            (Some ["Recommended"; "Optional"; "Urgent"]));
         ("details",
          STRING (Some "More information about the implementation of the fix.") None) ]
       ["fix"; "priority"; "details"]) w
  = true ->
  is_Some (as_RecommendedFix w).
Proof.
  intros H. unfold as_RecommendedFix.
  read_field H "fix" conforms_as_string.
  read_field H "priority" conforms_as_Priority.
  read_field H "details" conforms_as_string.
  eauto.
Qed.

Lemma conforms_as_ToolsAndParts (d : option string) (w : Json.value) :
  conforms
    (OBJECT d
       [ ("tools",
          ARRAY (Some "A list of tools that might be required.") (STRING None None));
         ("parts",
          ARRAY (Some "A list of potential parts that may need replacement.")
            (STRING None None)) ]
       ["tools"; "parts"]) w
  = true ->
  is_Some (as_ToolsAndParts w).
Proof.
  intros H. unfold as_ToolsAndParts.
  read_field H "tools" conforms_as_strings.
  read_field H "parts" conforms_as_strings.
  eauto.
Qed.

(** A value that conforms to [reportSchema] is a [DiagnosticReport]. *)
Lemma conforming_value_is_typed (v : Json.value) :
  conforms reportSchema v = true -> is_Some (as_DiagnosticReport v).
Proof.
  intros H. unfold reportSchema in H. unfold as_DiagnosticReport.
  read_field H "faultSummary" conforms_as_string.
  read_field H "possibleCauses" conforms_as_strings.
  read_field H "riskAssessment" conforms_as_RiskAssessment.
  read_field H "troubleshootingSteps"
    (conforms_as_list as_TroubleshootingStep _ conforms_as_TroubleshootingStep).
  read_field H "recommendedFixes"
    (conforms_as_list as_RecommendedFix _ conforms_as_RecommendedFix).
  read_field H "simplifiedExplanation" conforms_as_string.
  read_field H "toolsAndParts" conforms_as_ToolsAndParts.
  eauto.
Qed.

(** X2.  When the upstream answers with a text that honours the schema it
    was given, [runDiagnostics] resolves with a value that has the shape
    [DiagnosticReport] declares: the unchecked cast is then sound. *)
Lemma runDiagnostics_typed (text : string) (v : Json.value) :
  Json.parse (Js.trim text) = Some v ->
  conforms reportSchema v = true ->
  exists r, runDiagnostics (Resolves (Some text)) = inr v
            /\ as_DiagnosticReport v = Some r.
Proof.
  intros Hp Hc. destruct (conforming_value_is_typed v Hc) as [r Hr].
  exists r. split; [| exact Hr].
  unfold runDiagnostics, try_block. now rewrite Hp.
Qed.

Example full_response_is_fan_report :
  Json.parse (Js.trim Sample.full_response) ≫= as_DiagnosticReport
  = Some (Sample.fan_report High).
Proof. vm_compute. reflexivity. Qed.

End DiagnosticClient.

(** ** Submitting a case *)

Section Submission.

Import App.

Variable env : Env.

Lemma handleSubmit_calls (s : State) :
  has_input s = true ->
  exists s1 req,
    handleSubmit s = (s1, [GenerateContent req])
    /\ s1 = setActiveAlert None (setChatHistory [] (setChat None
              (setActiveIndex None (setReport None (setError None
                 (setIsLoading true s)))))).
Proof.
  unfold has_input, handleSubmit. intros H.
  destruct (Js.truthy (textInput s)), (Js.truthy_opt (imageBase64 s)),
    (Js.truthy (audioTranscript s)); try discriminate H;
    simpl; eexists _, _; split; reflexivity.
Qed.

Lemma submitCase_settled (result : string + DiagnosticReport.t) (now date : Z)
    (s : State) :
  has_input s = true ->
  submitCase env result now date s
  = handleSubmit_settled env s result now date
      (setActiveAlert None (setChatHistory [] (setChat None
         (setActiveIndex None (setReport None (setError None
            (setIsLoading true s))))))).
Proof.
  intros H. destruct (handleSubmit_calls s H) as (s1 & req & E & ->).
  unfold submitCase. rewrite E. reflexivity.
Qed.

Lemma clearInputs_fields (b : bool) (s : State) :
  let s' := clearInputs b s in
  textInput s' = "" /\ imageFile s' = None /\ imageBase64 s' = None
  /\ audioTranscript s' = "" /\ transcriptRef s' = ""
  /\ report s' = report s /\ history s' = history s
  /\ activeAlert s' = activeAlert s /\ activeIndex s' = activeIndex s.
Proof. destruct b; repeat split. Qed.


(** C9.  With the text, the image and the transcript all empty,
    [handleSubmit] only stores the validation message: it issues no call and
    every other part of the state, the history included, stays as it was. *)
Theorem handleSubmit_empty_is_validation_error (s : State) :
  textInput s = "" -> imageFile s = None -> imageBase64 s = None ->
  audioTranscript s = "" ->
  handleSubmit s
  = (setError (Some "Please provide a description, image, or voice note to start the diagnosis.") s,
     [])
  /\ history (handleSubmit s).1 = history s
  /\ forall result now date,
       submitCase env result now date s = (handleSubmit s).1.
Proof.
  intros Ht _ Hb Ha.
  assert (E : handleSubmit s
              = (setError (Some "Please provide a description, image, or voice note to start the diagnosis.") s, [])).
  { unfold handleSubmit. rewrite Ht, Hb, Ha. reflexivity. }
  split; [exact E |]. split.
  - rewrite E. reflexivity.
  - intros. unfold submitCase. rewrite E. reflexivity.
Qed.


(** C8.  When [runDiagnostics] rejects, the message of the rejection is
    stored, loading ends with no report active, and the text, the image, the
    transcript and the history are those of the submission. *)
Theorem submitCase_failure_keeps_input
    (up : GeminiService.Upstream) (message : string) (now date : Z) (s : State) :
  has_input s = true ->
  GeminiService.runDiagnostics up = inl message ->
  let s' := submitCase env (inl message) now date s in
  error s' = Some message /\ isLoading s' = false /\ report s' = None
  /\ activeIndex s' = None
  /\ textInput s' = textInput s /\ imageFile s' = imageFile s
  /\ imageBase64 s' = imageBase64 s /\ audioTranscript s' = audioTranscript s
  /\ transcriptRef s' = transcriptRef s
  /\ history s' = history s.
Proof.
  intros H Hup s'. subst s'. rewrite (submitCase_settled _ _ _ _ H).
  apply runDiagnostics_message_truthy in Hup.
  unfold handleSubmit_settled, handleSubmit_catch, Js.or_else.
  rewrite Hup. repeat split.
Qed.

Lemma alert_message_names_both (severity threshold : Severity) :
  names_both severity threshold (alert_message severity threshold).
Proof.
  exists ("Proactive Alert: The detected risk level is " +:+ Js.dq),
         (Js.dq +:+ ", which meets or exceeds your threshold of " +:+ Js.dq),
         (Js.dq +:+ ".").
  reflexivity.
Qed.

Lemma severityLevels_order :
  (severityLevels Low < severityLevels Medium < severityLevels High)%Z
  /\ (severityLevels High < severityLevels Critical)%Z.
Proof. cbn. lia. Qed.

(** C2.  After a successful submission the raised alert is the one message
    naming the report's severity and the threshold exactly when a threshold
    is set and the severity ranks at least as high; otherwise (lower rank, or
    the threshold disabled) no alert is raised.  The ranks order the
    severities as Low, Medium, High, Critical. *)
Theorem submitCase_alert_iff_rank
    (r : DiagnosticReport.t) (now date : Z) (s : State) :
  has_input s = true ->
  let s' := submitCase env (inr r) now date s in
  let severity := RiskAssessment.severity (DiagnosticReport.riskAssessment r) in
  match alertThreshold s with
  | Some t =>
      (activeAlert s' = Some (alert_message severity t)
       <-> (severityLevels severity >= severityLevels t)%Z)
      /\ (activeAlert s' = None
          <-> (severityLevels severity < severityLevels t)%Z)
  | None => activeAlert s' = None
  end
  /\ (forall t, names_both severity t (alert_message severity t))
  /\ (severityLevels Low < severityLevels Medium < severityLevels High)%Z
  /\ (severityLevels High < severityLevels Critical)%Z.
Proof.
  intros H s' severity.
  split; [| split; [intros t; apply alert_message_names_both
                   | apply severityLevels_order]].
  subst s'. rewrite (submitCase_settled _ _ _ _ H).
  unfold handleSubmit_settled, handleSubmit_try. cbn [alertThreshold].
  destruct (alertThreshold s) as [t |] eqn:Et.
  - fold severity.
    destruct (Z.leb_spec (severityLevels t) (severityLevels severity)) as [Hle | Hlt].
    + destruct (Js.truthy_opt (API_KEY env)), (isRecording s); cbn;
        (split; split; intros; [lia | reflexivity | discriminate | lia]).
    + destruct (Js.truthy_opt (API_KEY env)), (isRecording s); cbn;
        (split; split; intros; [discriminate | lia | lia | reflexivity]).
  - destruct (Js.truthy_opt (API_KEY env)), (isRecording s); reflexivity.
Qed.

End Submission.

(** ** History *)

Section History.

Import App.

Variable env : Env.


Lemma handleClearHistory_confirmed (s : State) :
  let s' := handleClearHistory true s in
  history s' = [] /\ report s' = None /\ activeIndex s' = None
  /\ chat s' = None /\ chatHistory s' = [] /\ chat_log s' = [].
Proof. repeat split. Qed.

Lemma clearHistory_empty (confirmed : bool) (s : State) :
  history s = [] -> clearHistory confirmed s = s.
Proof. unfold clearHistory. intros ->. reflexivity. Qed.

Lemma handleClearHistory_activeAlert (confirmed : bool) (s : State) :
  activeAlert (handleClearHistory confirmed s) = activeAlert s.
Proof. destruct confirmed; reflexivity. Qed.

(** C3, the code at the failing input.  In the session whose Critical report
    raised an alert against the High threshold, a confirmed "Clear History"
    empties the history and drops the report and the chat, and the alert is
    still raised. *)
Theorem clearHistory_leaves_alert_raised :
  let s := Sample.after_critical in
  let s' := clearHistory true s in
  history s <> [] /\ activeAlert s = Some (alert_message Critical High)
  /\ history s' = [] /\ report s' = None /\ chat s' = None
  /\ chatHistory s' = []
  /\ activeAlert s' = Some (alert_message Critical High).
Proof. vm_compute. repeat split; discriminate. Qed.

End History.

(** ** Speech capture *)

Section Speech.

Import App.

(** C7, the code at the failing input.  A phrase is finalized, the stream
    ends while recording and is started again, and an interim phrase
    arrives: the finalized phrase is gone from the stored and from the shown
    transcript, and stopping then leaves an empty transcript. *)
Theorem onresult_after_restart_loses_final_text :
  let s1 := onresult Sample.first_phrase Sample.recording in
  let s2 := onend s1 in
  let s3 := onresult Sample.second_phrase s2 in
  let s4 := handleRecordClick Sample.env s3 in
  (isRecording s1 = true /\ transcriptRef s1 = "the fan "
   /\ audioTranscript s1 = "the fan ")
  /\ (isRecording s2 = true /\ recognizing s2 = true
      /\ transcriptRef s2 = "the fan ")
  /\ (transcriptRef s3 = "" /\ audioTranscript s3 = "is noi")
  /\ (isRecording s4 = false /\ audioTranscript s4 = "").
Proof. vm_compute. repeat split. Qed.

(** Each result event overwrites the stored transcript with the final
    segments of that event, from [resultIndex] on. *)
Lemma onresult_overwrites (event : SpeechRecognitionEvent) (s : State) :
  transcriptRef (onresult event s) = (onresult_loop event).2
  /\ audioTranscript (onresult event s)
     = (onresult_loop event).2 +:+ (onresult_loop event).1.
Proof. unfold onresult. destruct (onresult_loop event). split; reflexivity. Qed.

End Speech.

(** ** Follow-up chat *)

Section Chat.

Import App.

Lemma append_assoc (a b c : string) : (a +:+ b) +:+ c = a +:+ (b +:+ c).
Proof.
  induction a as [| x a IH]; [reflexivity |]. exact (f_equal (String x) IH).
Qed.

Lemma append_empty_r (a : string) : a +:+ "" = a.
Proof.
  induction a as [| x a IH]; [reflexivity |]. exact (f_equal (String x) IH).
Qed.



(** *** Appending a turn object *)

Lemma fresh_not_in_log (s : State) :
  turns_allocated s -> fresh (dom (turns s)) ∉ chatHistory s.
Proof.
  intros Ha Hin. unfold turns_allocated in Ha. rewrite Forall_forall in Ha.
  apply Ha, elem_of_dom in Hin. exact (is_fresh _ Hin).
Qed.

Lemma chat_log_append_turn (t : ChatTurn) (s : State) :
  turns_allocated s -> chat_log (append_turn t s) = chat_log s ++ [Some t].
Proof.
  intros Ha. pose proof (fresh_not_in_log s Ha) as Hfresh.
  unfold chat_log, append_turn. cbn. rewrite fmap_app. f_equal.
  - apply Forall_fmap_ext_1, Forall_forall. intros l Hl.
    apply lookup_insert_ne. intros E. apply Hfresh. rewrite E. exact Hl.
  - cbn. now rewrite lookup_insert_eq.
Qed.

Lemma append_turn_allocated (t : ChatTurn) (s : State) :
  turns_allocated s -> turns_allocated (append_turn t s).
Proof.
  intros Ha. unfold turns_allocated, append_turn in *. cbn.
  apply Forall_app. split.
  - eapply Forall_impl; [exact Ha |]. intros l [x Hx]. cbn in *.
    destruct (decide (fresh (dom (turns s)) = l)) as [-> | Hne].
    + rewrite lookup_insert_eq. eauto.
    + rewrite lookup_insert_ne by exact Hne. eauto.
  - repeat constructor. rewrite lookup_insert_eq. eauto.
Qed.

(** The appended reference is new to the log, and its object is the turn. *)
Lemma append_turn_trailing (t : ChatTurn) (s : State) :
  turns_allocated s ->
  exists l, chatHistory (append_turn t s) = chatHistory s ++ [l]
            /\ (l ∉ chatHistory s)
            /\ turns (append_turn t s) !! l = Some t.
Proof.
  intros Ha. exists (fresh (dom (turns s))). split; [reflexivity |].
  split; [now apply fresh_not_in_log |]. cbn. apply lookup_insert_eq.
Qed.

(** *** The loop over the chunks *)

(** The loop changes one object, the one behind the last reference of the
    log, by appending the chunks to its text in their order; the list of
    references, every other object and every other part of the state stay. *)
Lemma for_await_trailing (chunks : list (option string)) :
  forall (s : State) (pre : list nat) (l : nat) (t : ChatTurn),
    chatHistory s = pre ++ [l] ->
    turns s !! l = Some t ->
    exists s',
      for_await chunks s = Some s'
      /\ turns s' !! l
         = Some {| role := role t; text := fold_left append_text chunks (text t) |}
      /\ (forall l', l' <> l -> turns s' !! l' = turns s !! l')
      /\ s' = set_turns (turns s') s.
Proof.
  induction chunks as [| c chunks IH]; intros s pre l t Hlog Hl; cbn.
  - exists s. split; [reflexivity |]. split; [| split].
    + rewrite Hl. now destruct t.
    + reflexivity.
    + now destruct s.
  - unfold apply_chunk. rewrite Hlog, last_snoc. cbn.
    set (f := fun t0 => {| role := role t0; text := append_text (text t0) c |}).
    set (s1 := set_turns (alter f l (turns s)) s).
    destruct (IH s1 pre l (f t)) as (s' & Hrun & Hl' & Hother & Hrest).
    + exact Hlog.
    + subst s1. cbn. rewrite lookup_alter_eq, Hl. reflexivity.
    + exists s'. split; [exact Hrun |]. split; [exact Hl' |]. split.
      * intros l' Hne. rewrite (Hother l' Hne). subst s1. cbn.
        apply lookup_alter_ne. congruence.
      * rewrite Hrest at 1. reflexivity.
Qed.

Lemma chat_log_trailing (s : State) (pre : list nat) (l : nat) :
  chatHistory s = pre ++ [l] ->
  chat_log s = ((fun l' => turns s !! l') <$> pre) ++ [turns s !! l].
Proof. unfold chat_log. intros ->. now rewrite fmap_app. Qed.

(** The loop on a log whose last reference occurs nowhere else in it. *)
Lemma for_await_log (chunks : list (option string))
    (s : State) (pre : list nat) (l : nat) (t : ChatTurn) (older : list (option ChatTurn)) :
  chatHistory s = pre ++ [l] -> l ∉ pre ->
  chat_log s = older ++ [Some t] ->
  turns_allocated s ->
  exists s',
    for_await chunks s = Some s'
    /\ chat_log s'
       = older ++ [Some {| role := role t;
                           text := fold_left append_text chunks (text t) |}]
    /\ turns_allocated s'
    /\ isChatLoading s' = isChatLoading s.
Proof.
  intros Hlog Hnew Holder Ha.
  rewrite (chat_log_trailing s pre l Hlog) in Holder.
  apply app_inj_tail in Holder as [Hpre Hl].
  destruct (for_await_trailing chunks s pre l t Hlog Hl)
    as (s' & Hrun & Hl' & Hother & Hrest).
  assert (Hlog' : chatHistory s' = pre ++ [l]) by (rewrite Hrest; exact Hlog).
  exists s'. split; [exact Hrun |]. split; [| split].
  - rewrite (chat_log_trailing s' pre l Hlog'), Hl', <- Hpre. f_equal.
    apply Forall_fmap_ext_1, Forall_forall. intros l' Hin.
    apply Hother. intros ->. exact (Hnew Hin).
  - unfold turns_allocated in *. rewrite Hlog'. rewrite Hlog in Ha.
    apply Forall_app in Ha as [Hpre_a _]. apply Forall_app. split.
    + rewrite Forall_forall in Hpre_a |- *. intros l' Hin.
      rewrite Hother; [now apply Hpre_a | intros ->; exact (Hnew Hin)].
    + repeat constructor. rewrite Hl'. eauto.
  - rewrite Hrest. reflexivity.
Qed.

(** *** A whole exchange *)

Variable s : State.
Variable session : Chat.

Hypothesis allocated : turns_allocated s.
Hypothesis chat_open : chat s = Some session.
Hypothesis not_loading : isChatLoading s = false.
Hypothesis not_blank : Js.truthy (Js.trim (chatInput s)) = true.

Lemma handleSendChatMessage_sends :
  handleSendChatMessage s
  = (setIsChatLoading true (append_turn (user_turn (chatInput s)) (setChatInput "" s)),
     [SendMessageStream session (chatInput s)]).
Proof.
  unfold handleSendChatMessage. rewrite chat_open, not_loading, not_blank.
  reflexivity.
Qed.

(** The state when the stream has yielded [chunks]: the log has grown by the
    question and by one assistant turn holding what was received. *)
Lemma stream_received (chunks : list (option string)) :
  exists s3,
    for_await chunks (stream_opened (handleSendChatMessage s).1) = Some s3
    /\ chat_log s3
       = chat_log s ++ [Some (user_turn (chatInput s));
                        Some (model_turn (received chunks))]
    /\ turns_allocated s3
    /\ isChatLoading s3 = false.
Proof.
  rewrite handleSendChatMessage_sends. cbn [fst].
  set (s1 := setIsChatLoading false
               (setIsChatLoading true (append_turn (user_turn (chatInput s)) (setChatInput "" s)))).
  assert (Ha1 : turns_allocated s1).
  { exact (append_turn_allocated (user_turn (chatInput s)) (setChatInput "" s) allocated). }
  assert (Hlog1 : chat_log s1 = chat_log s ++ [Some (user_turn (chatInput s))]).
  { exact (chat_log_append_turn (user_turn (chatInput s)) (setChatInput "" s) allocated). }
  set (empty := (model_turn "")).
  destruct (append_turn_trailing empty s1 Ha1) as (l & Hl & Hnew & _).
  destruct (for_await_log chunks (append_turn empty s1) (chatHistory s1) l empty
              (chat_log s1) Hl Hnew)
    as (s3 & Hrun & Hlog3 & Ha3 & Hload).
  - now apply chat_log_append_turn.
  - now apply append_turn_allocated.
  - exists s3. split; [exact Hrun |]. split; [| split].
    + rewrite Hlog3, Hlog1, <- app_assoc. reflexivity.
    + exact Ha3.
    + rewrite Hload. reflexivity.
Qed.


(** C6, as amended.  When the reply fails, an assistant turn holding the
    apology is added at the end of the log and the chat-loading flag is
    cleared.  If the call itself failed the apology follows the question; if
    the stream failed after it was opened, the assistant turn of the reply
    stays in the log with the text received so far and the apology follows
    it. *)
Theorem sendChatMessage_failure_appends_apology :
  (exists s',
     sendChatMessage CallRejects s = Some s'
     /\ chat_log s'
        = chat_log s ++ [Some (user_turn (chatInput s)); Some (model_turn apology)]
     /\ isChatLoading s' = false)
  /\ forall chunks,
       exists s',
         sendChatMessage (Stream chunks Throws) s = Some s'
         /\ chat_log s'
            = chat_log s
              ++ [Some (user_turn (chatInput s));
                  Some (model_turn (received chunks));
                  Some (model_turn apology)]
         /\ isChatLoading s' = false.
Proof.
  split.
  - eexists. split; [| split].
    + unfold sendChatMessage. rewrite handleSendChatMessage_sends. reflexivity.
    + unfold handleSendChatMessage_catch.
      change (chat_log (append_turn (model_turn apology)
                          (setIsChatLoading true
                             (append_turn (user_turn (chatInput s)) (setChatInput "" s))))
              = chat_log s ++ [Some (user_turn (chatInput s)); Some (model_turn apology)]).
      rewrite chat_log_append_turn.
      * change (chat_log (append_turn (user_turn (chatInput s)) (setChatInput "" s))
                ++ [Some (model_turn apology)]
                = chat_log s ++ [Some (user_turn (chatInput s)); Some (model_turn apology)]).
        rewrite (chat_log_append_turn (user_turn (chatInput s)) (setChatInput "" s) allocated).
        rewrite <- app_assoc. reflexivity.
      * exact (append_turn_allocated (user_turn (chatInput s)) (setChatInput "" s) allocated).
    + reflexivity.
  - intros chunks.
    destruct (stream_received chunks) as (s3 & Hrun & Hlog & Ha & _).
    exists (handleSendChatMessage_catch s3). split; [| split].
    + unfold sendChatMessage. rewrite handleSendChatMessage_sends in Hrun |- *.
      cbn [fst] in Hrun. rewrite Hrun. reflexivity.
    + change (chat_log (append_turn (model_turn apology) s3)
              = chat_log s
                ++ [Some (user_turn (chatInput s));
                    Some (model_turn (received chunks));
                    Some (model_turn apology)]).
      rewrite (chat_log_append_turn _ s3 Ha), Hlog, <- app_assoc. reflexivity.
    + reflexivity.
Qed.

End Chat.

(** ** An invariant of the page *)

Section Reachable.

Import App.

Variable env : Env.

Lemma apply_chunk_allocated (c : option string) (s s' : State) :
  apply_chunk c s = Some s' -> turns_allocated s -> turns_allocated s'.
Proof.
  unfold apply_chunk. destruct (last (chatHistory s)) as [l |]; [| discriminate].
  intros [= <-] Ha. unfold turns_allocated in *. cbn.
  eapply Forall_impl; [exact Ha |]. intros l' Hl'. cbn in *.
  now apply lookup_alter_is_Some.
Qed.

Lemma turns_allocated_same_log (s s' : State) :
  chatHistory s' = chatHistory s -> turns s' = turns s ->
  turns_allocated s -> turns_allocated s'.
Proof. unfold turns_allocated. intros -> ->. trivial. Qed.

Lemma turns_allocated_empty_log (s : State) :
  chatHistory s = [] -> turns_allocated s.
Proof. unfold turns_allocated. intros ->. constructor. Qed.

Lemma step_allocated (s s' : State) :
  step env s s' -> turns_allocated s -> turns_allocated s'.
Proof.
  intros Hstep Ha. destruct Hstep;
    try (apply (turns_allocated_same_log s); [reflexivity | reflexivity | exact Ha]).
  - destruct file; exact Ha.
  - unfold handleRecordClick.
    destruct (SpeechRecognition env), (isRecording s); try exact Ha.
    cbn. unfold recognition_start. cbn. destruct (recognizing s); exact Ha.
  - unfold onresult. destruct (onresult_loop event). exact Ha.
  - unfold onend. cbn. destruct (isRecording s); exact Ha.
  - unfold handleSubmit.
    destruct (negb _ && negb _ && negb _); [exact Ha | now apply turns_allocated_empty_log].
  - unfold handleSubmit_settled, handleSubmit_try, handleSubmit_catch.
    destruct result as [message | r]; [exact Ha |].
    destruct (alertThreshold snap) as [t |];
      [destruct (severityLevels t <=? _)%Z |];
      destruct (Js.truthy_opt (API_KEY env)), (isRecording snap); exact Ha.
  - unfold selectHistory. destruct (history s !! index); [| exact Ha].
    apply turns_allocated_empty_log. unfold handleSelectHistory. cbn.
    destruct (Js.truthy_opt (API_KEY env)); reflexivity.
  - unfold clearHistory. destruct (history s); [exact Ha |].
    destruct confirmed; [now apply turns_allocated_empty_log | exact Ha].
  - unfold handleSendChatMessage. destruct (chat s); [| exact Ha].
    destruct (negb _ || _); [exact Ha |].
    exact (append_turn_allocated _ (setChatInput "" s) Ha).
  - exact (append_turn_allocated _ (setIsChatLoading false s) Ha).
  - eapply apply_chunk_allocated; eassumption.
  - exact (append_turn_allocated _ s Ha).
Qed.

(** In every state the page can reach, each reference of the chat log has
    its turn object. *)
Lemma reachable_allocated (s : State) : reachable env s -> turns_allocated s.
Proof.
  unfold reachable. revert s. apply rtc_ind_r.
  - constructor.
  - intros s1 s2 _ Hstep IH. eapply step_allocated; eassumption.
Qed.

End Reachable.

(** ** The theorems at sample inputs *)

Section Witnesses.

Import App.

Lemma handleSubmit_empty_is_validation_error_witness :
  textInput initial = "" /\ imageFile initial = None
  /\ imageBase64 initial = None /\ audioTranscript initial = ""
  /\ handleSubmit initial
     = (setError (Some "Please provide a description, image, or voice note to start the diagnosis.") initial,
        [])
  /\ history (handleSubmit initial).1 = history initial.
Proof.
  do 4 (split; [reflexivity |]).
  destruct (handleSubmit_empty_is_validation_error Sample.env initial
              eq_refl eq_refl eq_refl eq_refl) as (H1 & H2 & _).
  split; [exact H1 | exact H2].
Defined.


Lemma submitCase_failure_keeps_input_witness :
  has_input Sample.typed_case = true
  /\ GeminiService.runDiagnostics (GeminiService.Resolves (Some "I cannot help with that."))
     = inl "Failed to get diagnostic report from AI: Unexpected token in JSON"
  /\ let s' :=
       submitCase Sample.env
         (inl "Failed to get diagnostic report from AI: Unexpected token in JSON")
         1700000000000 1700000000000 Sample.typed_case in
     error s' = Some "Failed to get diagnostic report from AI: Unexpected token in JSON"
     /\ report s' = None
     /\ textInput s' = "The fan is noisy"
     /\ history s' = [].
Proof.
  split; [reflexivity |]. split; [vm_compute; reflexivity |].
  destruct (submitCase_failure_keeps_input Sample.env
              (GeminiService.Resolves (Some "I cannot help with that."))
              "Failed to get diagnostic report from AI: Unexpected token in JSON"
              1700000000000 1700000000000 Sample.typed_case eq_refl eq_refl)
    as (He & _ & Hr & _ & Ht & _ & _ & _ & _ & Hh).
  repeat split; assumption.
Defined.

Lemma submitCase_alert_iff_rank_witness :
  has_input Sample.typed_case = true
  /\ activeAlert Sample.after_critical = Some (alert_message Critical High)
  /\ activeAlert
       (submitCase Sample.env (inr (Sample.fan_report Medium))
          1700000000000 1700000000000 Sample.typed_case)
     = None.
Proof.
  split; [reflexivity |]. split.
  - destruct (submitCase_alert_iff_rank Sample.env (Sample.fan_report Critical)
                1700000000000 1700000000000 Sample.typed_case eq_refl)
      as [[[_ H] _] _].
    apply H. cbn. lia.
  - destruct (submitCase_alert_iff_rank Sample.env (Sample.fan_report Medium)
                1700000000000 1700000000000 Sample.typed_case eq_refl)
      as [[_ [_ H]] _].
    apply H. cbn. lia.
Defined.


Lemma asking_again_allocated : turns_allocated Sample.asking_again.
Proof. repeat constructor; vm_compute; eauto. Defined.


Lemma sendChatMessage_failure_appends_apology_witness :
  turns_allocated Sample.asking_again
  /\ exists s',
       sendChatMessage (Stream [Some "The "] Throws) Sample.asking_again = Some s'
       /\ chat_log s'
          = [Some (user_turn "Is it safe to run?");
             Some (model_turn "Not until repaired.");
             Some (user_turn "What should I check first?");
             Some (model_turn "The ");
             Some (model_turn apology)]
       /\ isChatLoading s' = false.
Proof.
  split; [exact asking_again_allocated |].
  destruct (sendChatMessage_failure_appends_apology Sample.asking_again
              (submit_chat (Sample.fan_report Critical))
              asking_again_allocated eq_refl eq_refl eq_refl)
    as [_ H].
  destruct (H [Some "The "]) as (s' & Hrun & Hlog & Hload).
  exists s'. split; [exact Hrun |]. split; [| exact Hload].
  rewrite Hlog. vm_compute. reflexivity.
Defined.

(** C6, counterexample.  The stream fails after its first fragment: the
    assistant turn of the reply is neither replaced nor completed, it still
    reads "The ", and the apology is a turn of its own after it. *)
Lemma sendChatMessage_midstream_failure_leaves_partial_turn :
  exists s',
    sendChatMessage (Stream [Some "The "] Throws) Sample.asking = Some s'
    /\ chat_log s'
       = [Some (user_turn "Is it safe to run?");
          Some (model_turn "The ");
          Some (model_turn apology)]
    /\ chat_log s' !! 1%nat = Some (Some (model_turn "The "))
    /\ chat_log s'
       <> [Some (user_turn "Is it safe to run?");
           Some (model_turn apology)].
Proof.
  eexists. split; [vm_compute; reflexivity |].
  split; [vm_compute; reflexivity |].
  split; [vm_compute; reflexivity |].
  vm_compute. discriminate.
Qed.

Example parse_rejects_markdown_fence :
  Json.parse (Js.trim (lines ["```json"; "{}"; "```"])) = None.
Proof. vm_compute. reflexivity. Qed.

Example parse_rejects_trailing_comma :
  Json.parse (Js.quoted "{'a': [1, 2,]}") = None.
Proof. vm_compute. reflexivity. Qed.

Example parse_duplicate_key_last_wins :
  Json.get "a" <$> Json.parse (Js.quoted "{'a': 1, 'a': 2}")
  = Some (Some (Json.Number "2")).
Proof. vm_compute. reflexivity. Qed.

Example trim_strips_both_ends :
  Js.trim (nl +:+ "  {} " +:+ nl) = "{}".
Proof. vm_compute. reflexivity. Qed.

Example parse_object :
  Json.parse (Js.quoted " {'a': [1, -2.5e3, true, null], 'b': {'c': 'x\ny'}} ")
  = Some (Json.Object
            [("a", Json.Array [Json.Number "1"; Json.Number "-2.5e3";
                               Json.Bool true; Json.Null]);
             ("b", Json.Object [("c", Json.Str ("x" +:+ nl +:+ "y"))])]).
Proof. vm_compute. reflexivity. Qed.

End Witnesses.

(** * Further properties of the code *)

(** ** The diagnostic client *)

Section DiagnosticClientMore.

Import GeminiService.

(** X1.  [runDiagnostics] rejects exactly when the upstream call rejects,
    when the response has no text, or when its trimmed text is not JSON.  A
    rejection with an [Error] passes its message on behind the fixed prefix;
    the message about an unknown error is used exactly when what the
    upstream threw is not an [Error]. *)
Theorem runDiagnostics_rejection_cases (up : Upstream) :
  ((exists m, runDiagnostics up = inl m) <->
   match up with
   | Rejects _ => True
   | Resolves None => True
   | Resolves (Some text) => Json.parse (Js.trim text) = None
   end)
  /\ (forall u, up = Rejects (ThrownError u) ->
        runDiagnostics up = inl ("Failed to get diagnostic report from AI: " +:+ u))
  /\ (forall m, runDiagnostics up = inl m ->
        (m = "An unknown error occurred during AI diagnosis."
         <-> up = Rejects ThrownOther)
        /\ (up <> Rejects ThrownOther ->
            exists d, m = "Failed to get diagnostic report from AI: " +:+ d)).
Proof.
  split; [| split].
  - destruct up as [e | [text |]]; cbn.
    + split; [trivial | eauto].
    + unfold runDiagnostics, try_block.
      destruct (Json.parse (Js.trim text)) as [v |]; split.
      * intros [m Hm]. discriminate Hm.
      * discriminate.
      * reflexivity.
      * eauto.
    + split; [trivial | eauto].
  - intros u ->. reflexivity.
  - intros m Hm. destruct up as [[u |] | [text |]]; cbn in Hm.
    + injection Hm as <-. split; [split; discriminate | eauto].
    + injection Hm as <-. split; [split; reflexivity | congruence].
    + unfold runDiagnostics, try_block in Hm.
      destruct (Json.parse (Js.trim text)); [discriminate |].
      injection Hm as <-. split; [split; discriminate | eauto].
    + injection Hm as <-. split; [split; discriminate | eauto].
Qed.

Lemma runDiagnostics_rejection_cases_witness :
  runDiagnostics (Rejects (ThrownError "429 quota exceeded"))
  = inl "Failed to get diagnostic report from AI: 429 quota exceeded"
  /\ exists m, runDiagnostics (Resolves (Some Sample.fenced_response)) = inl m.
Proof.
  split.
  - apply (proj1 (proj2 (runDiagnostics_rejection_cases
                           (Rejects (ThrownError "429 quota exceeded"))))).
    reflexivity.
  - apply (proj1 (runDiagnostics_rejection_cases
                    (Resolves (Some Sample.fenced_response)))).
    vm_compute. reflexivity.
Defined.

Lemma runDiagnostics_typed_witness :
  exists v r,
    Json.parse (Js.trim Sample.full_response) = Some v
    /\ Schema.conforms reportSchema v = true
    /\ runDiagnostics (Resolves (Some Sample.full_response)) = inr v
    /\ Typed.as_DiagnosticReport v = Some r.
Proof.
  destruct (Json.parse (Js.trim Sample.full_response)) as [v |] eqn:E;
    [| vm_compute in E; discriminate E].
  assert (Hc : Schema.conforms reportSchema v = true).
  { vm_compute in E. injection E as <-. vm_compute. reflexivity. }
  destruct (runDiagnostics_typed Sample.full_response v E Hc) as (r & Hrun & Hr).
  exists v, r. repeat split; assumption.
Defined.

End DiagnosticClientMore.

(** ** Speech capture *)

Section SpeechMore.

Import App.

(** The final and the interim segments of a list of results, each put
    together in the order of the list. *)
Lemma onresult_loop_fold (rs : list SpeechRecognitionResult) (interim final : string) :
  fold_left
    (fun '(interimTranscript, finalTranscript) r =>
       if isFinal r
       then (interimTranscript, finalTranscript +:+ transcript r)
       else (interimTranscript +:+ transcript r, finalTranscript))
    rs (interim, final)
  = (interim +:+ concat_fragments (transcript <$> List.filter (fun r => negb (isFinal r)) rs),
     final +:+ concat_fragments (transcript <$> List.filter isFinal rs)).
Proof.
  revert interim final. induction rs as [| r rs IH]; intros interim final.
  - cbn. now rewrite !append_empty_r.
  - cbn [fold_left List.filter]. destruct (isFinal r); cbn [negb]; rewrite IH.
    + f_equal. apply append_assoc.
    + f_equal. apply append_assoc.
Qed.

Lemma onresult_loop_parts (event : SpeechRecognitionEvent) :
  onresult_loop event
  = (concat_fragments
       (transcript <$> List.filter (fun r => negb (isFinal r))
                         (drop (resultIndex event) (results event))),
     concat_fragments
       (transcript <$> List.filter isFinal
                         (drop (resultIndex event) (results event)))).
Proof. unfold onresult_loop. apply onresult_loop_fold. Qed.

(** X3.  A result event replaces the stored transcript by the final
    segments of the event from [resultIndex] on, put together in their
    order, and shows them followed by the interim segments from
    [resultIndex] on, whatever the order of final and interim segments in
    the event.  When [resultIndex] is not below the number of results both
    become empty.  Nothing else of the state changes. *)
Theorem onresult_shows_finals_then_interims
    (event : SpeechRecognitionEvent) (s : State) :
  let rs := drop (resultIndex event) (results event) in
  let finals := concat_fragments (transcript <$> List.filter isFinal rs) in
  let interims :=
    concat_fragments (transcript <$> List.filter (fun r => negb (isFinal r)) rs) in
  onresult event s
  = setAudioTranscript (finals +:+ interims) (set_transcriptRef finals s)
  /\ (length (results event) <= resultIndex event ->
      transcriptRef (onresult event s) = ""
      /\ audioTranscript (onresult event s) = "").
Proof.
  intros rs finals interims. subst rs finals interims.
  unfold onresult. rewrite onresult_loop_parts. split; [reflexivity |].
  intros Hle. rewrite drop_ge by exact Hle. split; reflexivity.
Qed.

Lemma onresult_shows_finals_then_interims_witness :
  length (results Sample.first_phrase) <= 1
  /\ transcriptRef (onresult Cases.mixed_event Sample.recording) = "the fan "
  /\ audioTranscript (onresult Cases.mixed_event Sample.recording)
     = "the fan is noi"
  /\ audioTranscript
       (onresult {| resultIndex := 1; results := results Sample.first_phrase |}
          (onresult Cases.mixed_event Sample.recording))
     = "".
Proof.
  split; [cbn; lia |].
  destruct (onresult_shows_finals_then_interims Cases.mixed_event Sample.recording)
    as [H _].
  rewrite H. split; [reflexivity |]. split; [reflexivity |].
  destruct (onresult_shows_finals_then_interims
              {| resultIndex := 1; results := results Sample.first_phrase |}
              (onresult Cases.mixed_event Sample.recording))
    as [_ H'].
  apply H'. cbn. lia.
Defined.

(** X4.  Stopping a recording shows what the last result event stored: the
    final segments of that event; its interim segments are dropped.  The
    recording flag is cleared and the stored transcript is kept. *)
Theorem stop_after_result_keeps_finals
    (env : Env) (event : SpeechRecognitionEvent) (s : State) :
  SpeechRecognition env = true ->
  isRecording s = true ->
  let finals :=
    concat_fragments
      (transcript <$> List.filter isFinal (drop (resultIndex event) (results event))) in
  let s' := handleRecordClick env (onresult event s) in
  audioTranscript s' = finals /\ transcriptRef s' = finals
  /\ isRecording s' = false.
Proof.
  intros Henv Hrec finals s'. subst finals s'.
  unfold handleRecordClick, onresult. rewrite onresult_loop_parts, Henv.
  cbn. rewrite Hrec. repeat split.
Qed.

Lemma stop_after_result_keeps_finals_witness :
  SpeechRecognition Sample.env = true
  /\ isRecording Sample.recording = true
  /\ audioTranscript (onresult Cases.mixed_event Sample.recording) = "the fan is noi"
  /\ audioTranscript
       (handleRecordClick Sample.env (onresult Cases.mixed_event Sample.recording))
     = "the fan ".
Proof.
  split; [reflexivity |]. split; [reflexivity |]. split; [reflexivity |].
  destruct (stop_after_result_keeps_finals Sample.env Cases.mixed_event
              Sample.recording eq_refl eq_refl) as [H _].
  rewrite H. reflexivity.
Defined.


End SpeechMore.

(** ** Submitting a case *)

Section SubmissionMore.

Import App.

Variable env : Env.

(** X6.  [handleSubmit] issues no call exactly when the text, the image data
    and the transcript are all falsy, and one call to [runDiagnostics]
    otherwise.  The chosen file plays no part: a file whose data has not
    arrived does not let an otherwise empty submission through. *)
Theorem handleSubmit_calls_iff_input (s : State) :
  ((handleSubmit s).2 = [] <->
   textInput s = "" /\ Js.truthy_opt (imageBase64 s) = false
   /\ audioTranscript s = "")
  /\ ((handleSubmit s).2 = [] \/ exists req, (handleSubmit s).2 = [GenerateContent req])
  /\ forall f, (handleSubmit (setImageFile f s)).2 = [] <-> (handleSubmit s).2 = [].
Proof.
  assert (Hiff : forall s0,
             (handleSubmit s0).2 = [] <->
             textInput s0 = "" /\ Js.truthy_opt (imageBase64 s0) = false
             /\ audioTranscript s0 = "").
  { intros s0. unfold handleSubmit.
    destruct (textInput s0) as [| c t] eqn:Et; cbn;
      destruct (Js.truthy_opt (imageBase64 s0)) eqn:Eb; cbn;
      destruct (audioTranscript s0) as [| c' t'] eqn:Ea; cbn;
      split; try discriminate; try tauto;
      intros (H1 & H2 & H3); discriminate. }
  split; [apply Hiff |]. split.
  - unfold handleSubmit. destruct (negb _ && negb _ && negb _); cbn; eauto.
  - intros f. rewrite (Hiff s), (Hiff (setImageFile f s)). reflexivity.
Qed.

Lemma handleSubmit_calls_iff_input_witness :
  (handleSubmit Cases.image_pending).2 = []
  /\ exists req, (handleSubmit Cases.image_case).2 = [GenerateContent req].
Proof.
  split.
  - apply (proj2 (proj1 (handleSubmit_calls_iff_input Cases.image_pending))).
    repeat split.
  - destruct (proj1 (proj2 (handleSubmit_calls_iff_input Cases.image_case)))
      as [H | H]; [| exact H].
    apply (proj1 (handleSubmit_calls_iff_input Cases.image_case)) in H.
    destruct H as [H _]. discriminate H.
Defined.





End SubmissionMore.

(** ** History and the active report *)

Section HistoryMore.

Import App.

Variable env : Env.

(** What one event can do to the history, the active report with its index
    and the chat session: nothing; reset the report, with the history kept
    or emptied; put a new entry in front and make it active; or make an
    entry of the history active. *)
Lemma step_report_cases (s s' : State) :
  step env s s' ->
  (history s' = history s /\ report s' = report s
   /\ activeIndex s' = activeIndex s /\ chat s' = chat s)
  \/ ((history s' = history s \/ history s' = [])
      /\ report s' = None /\ activeIndex s' = None /\ chat s' = None)
  \/ (exists i e,
        (history s' = history s \/ (i = 0%nat /\ history s' = e :: history s))
        /\ history s' !! i = Some e
        /\ report s' = Some (HistoryEntry.report e)
        /\ activeIndex s' = Some i
        /\ (chat s' = chat s \/ is_Some (chat s'))
        /\ (Js.truthy_opt (API_KEY env) = true -> is_Some (chat s'))).
Proof.
  intros Hstep. destruct Hstep;
    try (left; repeat split; reflexivity).
  - left. destruct file; repeat split.
  - left. unfold handleRecordClick.
    destruct (SpeechRecognition env), (isRecording s); try (repeat split; fail).
    cbn. unfold recognition_start. cbn. destruct (recognizing s); repeat split.
  - left. unfold onresult. destruct (onresult_loop event). repeat split.
  - left. unfold onend. cbn. destruct (isRecording s); repeat split.
  - unfold handleSubmit. destruct (negb _ && negb _ && negb _).
    + left. repeat split.
    + right. left. cbn. split; [now left |]. repeat split.
  - destruct result as [message | r].
    + left. repeat split.
    + right. right. unfold handleSubmit_settled, handleSubmit_try.
      eexists 0%nat, _.
      destruct (alertThreshold snap) as [t |];
        [destruct (severityLevels t <=? _)%Z |];
        destruct (Js.truthy_opt (API_KEY env)), (isRecording snap); cbn;
        (split; [right; split; reflexivity |]);
        (split; [reflexivity |]); (split; [reflexivity |]);
        (split; [reflexivity |]);
        (split; [first [left; reflexivity | right; eauto] |]);
        first [discriminate | eauto].
  - unfold selectHistory. destruct (history s !! index) as [e |] eqn:E.
    + right. right. exists index, e. unfold handleSelectHistory. cbn.
      destruct (Js.truthy_opt (API_KEY env)); cbn;
        (split; [left; reflexivity |]); (split; [exact E |]);
        (split; [reflexivity |]); (split; [reflexivity |]);
        (split; [first [left; reflexivity | right; eauto] |]);
        first [discriminate | eauto].
    + left. repeat split.
  - unfold clearHistory. destruct (history s) eqn:E.
    + left. split; [exact E | repeat split].
    + destruct confirmed.
      * right. left. cbn. split; [now right |]. repeat split.
      * left. split; [exact E | repeat split].
  - left. unfold handleSendChatMessage.
    destruct (chat s) eqn:Ec; [| repeat split; exact Ec].
    destruct (negb _ || _); cbn; rewrite ?Ec; repeat split.
  - left. unfold apply_chunk in H.
    destruct (last (chatHistory s)); [| discriminate].
    injection H as <-. repeat split.
Qed.



(** X12.  One event leaves the history as it is, puts one new entry in
    front of it, or empties it: entries are never changed, reordered or
    removed one by one. *)
Theorem step_history_shape (s s' : State) :
  step env s s' ->
  history s' = history s
  \/ (exists e, history s' = e :: history s)
  \/ history s' = [].
Proof.
  intros Hstep.
  destruct (step_report_cases s s' Hstep)
    as [(Hh & _) | [([Hh | Hh] & _) | (i & e & [Hh | [_ Hh]] & _)]]; eauto.
Qed.


End HistoryMore.

(** ** Follow-up chat *)

Section ChatMore.

Import App.

(** X14.  [handleSendChatMessage] does nothing at all (no call, the state as
    it was) exactly when no session is open, the input is blank once
    trimmed, or the loading flag is set.  Otherwise it issues one call that
    carries the input as typed (not trimmed), empties the input and sets the
    loading flag. *)
Theorem handleSendChatMessage_noop_iff (s : State) :
  ((handleSendChatMessage s).2 = [] <->
   chat s = None \/ Js.truthy (Js.trim (chatInput s)) = false
   \/ isChatLoading s = true)
  /\ ((handleSendChatMessage s).2 = [] -> (handleSendChatMessage s).1 = s)
  /\ forall session,
       chat s = Some session -> Js.truthy (Js.trim (chatInput s)) = true ->
       isChatLoading s = false ->
       (handleSendChatMessage s).2 = [SendMessageStream session (chatInput s)]
       /\ chatInput (handleSendChatMessage s).1 = ""
       /\ isChatLoading (handleSendChatMessage s).1 = true.
Proof.
  unfold handleSendChatMessage.
  destruct (chat s) as [session |] eqn:Ec.
  - destruct (Js.truthy (Js.trim (chatInput s))) eqn:Et;
      destruct (isChatLoading s) eqn:El; cbn.
    + split; [split; [intros _; right; right; reflexivity | reflexivity] |].
      split; [reflexivity | intros ? _ _ H; discriminate H].
    + split; [split; [discriminate | intros [H | [H | H]]; discriminate H] |].
      split; [discriminate |]. intros session' [= <-] _ _. repeat split.
    + split; [split; [intros _; right; left; reflexivity | reflexivity] |].
      split; [reflexivity | intros ? _ H; discriminate H].
    + split; [split; [intros _; right; left; reflexivity | reflexivity] |].
      split; [reflexivity | intros ? _ H; discriminate H].
  - split; [split; [intros _; left; reflexivity | reflexivity] |].
    split; [reflexivity | intros ? H; discriminate H].
Qed.

Lemma handleSendChatMessage_noop_iff_witness :
  Js.truthy (Js.trim (chatInput (setChatInput "   " Sample.after_critical))) = false
  /\ handleSendChatMessage (setChatInput "   " Sample.after_critical)
     = (setChatInput "   " Sample.after_critical, [])
  /\ (handleSendChatMessage (setChatInput " why? " Sample.after_critical)).2
     = [SendMessageStream (submit_chat (Sample.fan_report Critical)) " why? "].
Proof.
  split; [vm_compute; reflexivity |]. split.
  - pose proof (handleSendChatMessage_noop_iff
                  (setChatInput "   " Sample.after_critical)) as (Hiff & Hsame & _).
    assert (Hc : (handleSendChatMessage (setChatInput "   " Sample.after_critical)).2 = []).
    { apply Hiff. right. left. vm_compute. reflexivity. }
    apply injective_projections; [exact (Hsame Hc) | exact Hc].
  - pose proof (handleSendChatMessage_noop_iff
                  (setChatInput " why? " Sample.after_critical)) as (_ & _ & Hsend).
    apply (Hsend (submit_chat (Sample.fan_report Critical)));
      vm_compute; reflexivity.
Defined.

(** X15.  The updater of a chunk throws exactly when the chat log is empty.
    That is the state right after an entry of the history is selected, a
    submission is started or the history is cleared, so a chunk of a reply
    that is still streaming at that moment makes its updater throw. *)
Theorem apply_chunk_throws_iff_log_empty (chunkText : option string) (s : State) :
  (apply_chunk chunkText s = None <-> chatHistory s = [])
  /\ (forall env i, is_Some (history s !! i) ->
        apply_chunk chunkText (selectHistory env i s).1 = None)
  /\ (has_input s = true -> apply_chunk chunkText (handleSubmit s).1 = None)
  /\ (history s <> [] -> apply_chunk chunkText (clearHistory true s) = None).
Proof.
  assert (Hiff : forall s0, apply_chunk chunkText s0 = None <-> chatHistory s0 = []).
  { intros s0. unfold apply_chunk. rewrite <- last_None.
    destruct (last (chatHistory s0)); cbn; split; congruence. }
  split; [apply Hiff |]. split; [| split].
  - intros env i [e He]. apply Hiff. unfold selectHistory. rewrite He.
    unfold handleSelectHistory. cbn.
    destruct (Js.truthy_opt (API_KEY env)); reflexivity.
  - intros H. apply Hiff.
    destruct (handleSubmit_calls s H) as (s1 & req & E & ->). rewrite E.
    reflexivity.
  - intros H. apply Hiff. unfold clearHistory.
    destruct (history s); [congruence | reflexivity].
Qed.

(** X16.  The loading flag is cleared as soon as the stream of a reply
    opens, so a second question can be sent while the reply still streams:
    it is accepted, its turn becomes the last of the log, and the next chunk
    of the first reply is appended to the text of that question, while the
    assistant turn of the first reply stays as it was. *)
Theorem chunk_after_second_question
    (s : State) (session : Chat) (question2 : string) (chunkText : option string) :
  turns_allocated s ->
  chat s = Some session ->
  isChatLoading s = false ->
  Js.truthy (Js.trim (chatInput s)) = true ->
  Js.truthy (Js.trim question2) = true ->
  let s1 := stream_opened (handleSendChatMessage s).1 in
  let s2 := setChatInput question2 s1 in
  (handleSendChatMessage s2).2 = [SendMessageStream session question2]
  /\ exists s3,
       apply_chunk chunkText (handleSendChatMessage s2).1 = Some s3
       /\ chat_log s3
          = chat_log s
            ++ [Some (user_turn (chatInput s));
                Some (model_turn "");
                Some (user_turn (append_text question2 chunkText))].
Proof.
  intros Ha Hc Hl Ht Ht2. cbv zeta.
  destruct (stream_received s session Ha Hc Hl Ht [])
    as (s1 & Hrun & Hlog1 & Ha1 & Hl1).
  cbn [for_await] in Hrun. injection Hrun as Hs1. rewrite Hs1.
  assert (Hc1 : chat s1 = Some session).
  { rewrite <- Hs1, (handleSendChatMessage_sends s session Hc Hl Ht).
    cbn. exact Hc. }
  set (s2 := setChatInput question2 s1).
  assert (Hsend : handleSendChatMessage s2
                  = (setIsChatLoading true
                       (append_turn (user_turn question2) (setChatInput "" s2)),
                     [SendMessageStream session question2])).
  { exact (handleSendChatMessage_sends s2 session Hc1 Hl1 Ht2). }
  rewrite Hsend. cbn [fst snd]. split; [reflexivity |].
  set (s2' := setChatInput "" s2).
  assert (Ha2' : turns_allocated s2') by exact Ha1.
  destruct (append_turn_trailing (user_turn question2) s2' Ha2')
    as (l & Hlast & Hnew & _).
  destruct (for_await_log [chunkText]
              (setIsChatLoading true (append_turn (user_turn question2) s2'))
              (chatHistory s2') l (user_turn question2) (chat_log s2')
              Hlast Hnew)
    as (s3 & Hrun3 & Hlog3 & _ & _).
  - exact (chat_log_append_turn (user_turn question2) s2' Ha2').
  - exact (append_turn_allocated (user_turn question2) s2' Ha2').
  - cbn [for_await] in Hrun3.
    destruct (apply_chunk chunkText
                (setIsChatLoading true (append_turn (user_turn question2) s2')))
      as [s3' |] eqn:E; [| discriminate Hrun3].
    cbn in Hrun3. injection Hrun3 as ->.
    exists s3. split; [reflexivity |].
    rewrite Hlog3.
    change (chat_log s2') with (chat_log s1). rewrite Hlog1.
    change (received []) with "". rewrite <- app_assoc. reflexivity.
Qed.

(** X17.  A reply whose stream opens after another entry of the history has
    been selected is not dropped: its assistant turn is added to the emptied
    log and filled with the chunks, so the reply to a question about one
    report shows as the only turn in the chat of the other. *)
Theorem stale_stream_fills_new_chat
    (env : Env) (i : nat) (e : HistoryEntry.t) (chunks : list (option string))
    (s : State) :
  turns_allocated s ->
  history s !! i = Some e ->
  exists s',
    for_await chunks (stream_opened (selectHistory env i s).1) = Some s'
    /\ chat_log s' = [Some (model_turn (received chunks))]
    /\ report s' = Some (HistoryEntry.report e).
Proof.
  intros Ha He.
  set (s1 := setIsChatLoading false (selectHistory env i s).1).
  assert (Hempty : chatHistory s1 = []).
  { subst s1. unfold selectHistory. rewrite He. unfold handleSelectHistory. cbn.
    destruct (Js.truthy_opt (API_KEY env)); reflexivity. }
  assert (Hrep : report s1 = Some (HistoryEntry.report e)).
  { subst s1. unfold selectHistory. rewrite He. unfold handleSelectHistory. cbn.
    destruct (Js.truthy_opt (API_KEY env)); reflexivity. }
  assert (Ha1 : turns_allocated s1).
  { unfold turns_allocated. rewrite Hempty. constructor. }
  destruct (append_turn_trailing (model_turn "") s1 Ha1) as (l & Hlast & Hnew & Hl).
  pose proof (chat_log_append_turn (model_turn "") s1 Ha1) as Hlog.
  destruct (for_await_log chunks (append_turn (model_turn "") s1)
              (chatHistory s1) l (model_turn "") (chat_log s1) Hlast Hnew Hlog
              (append_turn_allocated _ s1 Ha1))
    as (s' & Hrun & Hlog' & _ & _).
  destruct (for_await_trailing chunks (append_turn (model_turn "") s1)
              (chatHistory s1) l (model_turn "") Hlast Hl)
    as (s'' & Hrun' & _ & _ & Hrest).
  rewrite Hrun in Hrun'. injection Hrun' as <-.
  exists s'. split; [exact Hrun |]. split.
  - rewrite Hlog'. unfold chat_log. rewrite Hempty. reflexivity.
  - rewrite Hrest. cbn. exact Hrep.
Qed.

End ChatMore.

(** ** The risk meter *)

Section RenderMore.

Import App Render.

(** X18.  The risk meter lights as many of its four bars as the rank that
    the alert rule gives the severity, the lit bars first; the levels of
    [severityConfig] are the ranks of [severityLevels], between 1 and 4. *)
Theorem risk_meter_matches_rank (s : Severity) :
  level (severityConfig s) = severityLevels s
  /\ (1 <= level (severityConfig s) <= 4)%Z
  /\ bar_colors s
     = replicate (Z.to_nat (severityLevels s)) (color (severityConfig s))
       ++ replicate (4 - Z.to_nat (severityLevels s)) "bg-slate-600".
Proof. destruct s; repeat split; cbn; lia. Qed.

End RenderMore.

(** ** The raised alert *)

Section AlertMore.

Import App.

Variable env : Env.

(** What one event can do to the raised alert: nothing, clear it, or raise
    the message of a severity that ranks at least as high as a threshold. *)
Lemma step_alert_cases (s s' : State) :
  step env s s' ->
  activeAlert s' = activeAlert s
  \/ activeAlert s' = None
  \/ exists severity threshold,
       (severityLevels severity >= severityLevels threshold)%Z
       /\ activeAlert s' = Some (alert_message severity threshold).
Proof.
  intros Hstep. destruct Hstep; try (left; reflexivity).
  - left. destruct file; reflexivity.
  - left. unfold handleRecordClick.
    destruct (SpeechRecognition env), (isRecording s); try reflexivity.
    cbn. unfold recognition_start. cbn. destruct (recognizing s); reflexivity.
  - left. unfold onresult. destruct (onresult_loop event). reflexivity.
  - left. unfold onend. cbn. destruct (isRecording s); reflexivity.
  - right. left. reflexivity.
  - unfold handleSubmit. destruct (negb _ && negb _ && negb _).
    + left. reflexivity.
    + right. left. reflexivity.
  - destruct result as [message | r]; [left; reflexivity |].
    unfold handleSubmit_settled, handleSubmit_try.
    destruct (alertThreshold snap) as [t |].
    + destruct (Z.leb_spec (severityLevels t)
                  (severityLevels
                     (RiskAssessment.severity (DiagnosticReport.riskAssessment r))))
        as [Hle | Hlt].
      * right. right. eexists _, t. split; [apply Z.le_ge; exact Hle |].
        destruct (Js.truthy_opt (API_KEY env)), (isRecording snap); reflexivity.
      * left. destruct (Js.truthy_opt (API_KEY env)), (isRecording snap); reflexivity.
    + left. destruct (Js.truthy_opt (API_KEY env)), (isRecording snap); reflexivity.
  - unfold selectHistory. destruct (history s !! index) as [e |].
    + right. left. unfold handleSelectHistory. cbn.
      destruct (Js.truthy_opt (API_KEY env)); reflexivity.
    + left. reflexivity.
  - left. unfold clearHistory. destruct (history s); [reflexivity |].
    destruct confirmed; reflexivity.
  - left. unfold handleSendChatMessage. destruct (chat s); [| reflexivity].
    destruct (negb _ || _); reflexivity.
  - left. unfold apply_chunk in H.
    destruct (last (chatHistory s)); [| discriminate].
    injection H as <-. reflexivity.
Qed.

(** X19.  In every state the page can reach, and so in whatever order
    pending calls settle, a raised alert is the message the rule gives for a
    severity and a threshold of which the severity ranks at least as high:
    no alert is ever shown for a severity below the threshold it names. *)
Theorem reachable_alert_respects_threshold (s : State) (message : string) :
  reachable env s ->
  activeAlert s = Some message ->
  exists severity threshold,
    message = alert_message severity threshold
    /\ (severityLevels severity >= severityLevels threshold)%Z.
Proof.
  unfold reachable. intros Hr. revert message. revert s Hr.
  apply (rtc_ind_r
           (fun s => forall message, activeAlert s = Some message ->
              exists severity threshold,
                message = alert_message severity threshold
                /\ (severityLevels severity >= severityLevels threshold)%Z)).
  - intros message H. discriminate H.
  - intros s s' _ Hstep IH message Hm.
    destruct (step_alert_cases s s' Hstep)
      as [Hsame | [Hnone | (severity & threshold & Hrank & Hraised)]].
    + apply IH. rewrite <- Hsame. exact Hm.
    + rewrite Hnone in Hm. discriminate Hm.
    + rewrite Hraised in Hm. injection Hm as <-. eauto.
Qed.

End AlertMore.

(** ** The further properties at sample inputs *)

Section MoreWitnesses.

Import App.

Lemma after_critical_reachable : reachable Sample.env Sample.after_critical.
Proof.
  unfold reachable.
  eapply rtc_r;
    [| exact (step_submit_settled Sample.env (handleSubmit Sample.typed_case).1
                Sample.typed_case (inr (Sample.fan_report Critical))
                1700000000000 1700000000000)].
  eapply rtc_r; [| exact (step_submit Sample.env Sample.typed_case eq_refl)].
  eapply rtc_r;
    [| exact (step_threshold Sample.env
                (setTextInput "The fan is noisy" initial) (Some High))].
  eapply rtc_r; [| exact (step_textInput Sample.env initial "The fan is noisy")].
  apply rtc_refl.
Defined.


Lemma awaiting_reply_allocated : turns_allocated Cases.awaiting_reply.
Proof. repeat constructor; vm_compute; eauto. Defined.



Lemma step_history_shape_witness :
  step Sample.env (handleSubmit Sample.typed_case).1 Sample.after_critical
  /\ (history Sample.after_critical = history (handleSubmit Sample.typed_case).1
      \/ (exists e, history Sample.after_critical
                    = e :: history (handleSubmit Sample.typed_case).1)
      \/ history Sample.after_critical = []).
Proof.
  assert (Hstep : step Sample.env (handleSubmit Sample.typed_case).1
                    Sample.after_critical).
  { exact (step_submit_settled Sample.env (handleSubmit Sample.typed_case).1
             Sample.typed_case (inr (Sample.fan_report Critical))
             1700000000000 1700000000000). }
  split; [exact Hstep |].
  exact (step_history_shape Sample.env _ _ Hstep).
Defined.


Lemma apply_chunk_throws_iff_log_empty_witness :
  is_Some (history Cases.awaiting_reply !! 0%nat)
  /\ chat_log Cases.awaiting_reply = [Some (user_turn "Is it safe to run?")]
  /\ apply_chunk (Some "Not ") (selectHistory Sample.env 0 Cases.awaiting_reply).1
     = None.
Proof.
  assert (H : is_Some (history Cases.awaiting_reply !! 0%nat)) by (vm_compute; eauto).
  split; [exact H |]. split; [vm_compute; reflexivity |].
  exact (proj1 (proj2 (apply_chunk_throws_iff_log_empty (Some "Not ")
                         Cases.awaiting_reply)) Sample.env 0%nat H).
Defined.

Lemma chunk_after_second_question_witness :
  turns_allocated Sample.asking
  /\ exists s3,
       apply_chunk (Some "Not ")
         (handleSendChatMessage
            (setChatInput "And the motor?"
               (stream_opened (handleSendChatMessage Sample.asking).1))).1
       = Some s3
       /\ chat_log s3
          = [Some (user_turn "Is it safe to run?");
             Some (model_turn "");
             Some (user_turn "And the motor?Not ")].
Proof.
  assert (Ha : turns_allocated Sample.asking) by constructor.
  split; [exact Ha |].
  destruct (chunk_after_second_question Sample.asking
              (submit_chat (Sample.fan_report Critical)) "And the motor?"
              (Some "Not ") Ha eq_refl eq_refl eq_refl eq_refl)
    as (_ & s3 & Hrun & Hlog).
  exists s3. split; [exact Hrun |]. rewrite Hlog. vm_compute. reflexivity.
Defined.

Lemma stale_stream_fills_new_chat_witness :
  turns_allocated Cases.awaiting_reply
  /\ exists e s',
       history Cases.awaiting_reply !! 0%nat = Some e
       /\ for_await [Some "Not "; Some "yet."]
            (stream_opened (selectHistory Sample.env 0 Cases.awaiting_reply).1)
          = Some s'
       /\ chat_log s' = [Some (model_turn "Not yet.")].
Proof.
  split; [exact awaiting_reply_allocated |].
  destruct (history Cases.awaiting_reply !! 0%nat) as [e |] eqn:E;
    [| vm_compute in E; discriminate E].
  destruct (stale_stream_fills_new_chat Sample.env 0 e [Some "Not "; Some "yet."]
              Cases.awaiting_reply awaiting_reply_allocated E)
    as (s' & Hrun & Hlog & _).
  exists e, s'. split; [reflexivity |]. split; [exact Hrun |].
  rewrite Hlog. reflexivity.
Defined.

Lemma reachable_alert_respects_threshold_witness :
  reachable Sample.env Sample.after_critical
  /\ activeAlert Sample.after_critical = Some (alert_message Critical High)
  /\ exists severity threshold,
       alert_message Critical High = alert_message severity threshold
       /\ (severityLevels severity >= severityLevels threshold)%Z.
Proof.
  split; [exact after_critical_reachable |]. split; [reflexivity |].
  exact (reachable_alert_respects_threshold Sample.env Sample.after_critical
           (alert_message Critical High) after_critical_reachable eq_refl).
Defined.

End MoreWitnesses.
